(** * ViewEngine REST API demo (viewengine_demo.py): a shallow embedding

    The script is a sequential command-line client: it reads lines from the
    console, talks to a server through the [requests] library, sleeps between
    polls and prints to the console.  The embedding keeps these effects
    explicit: every function of the script is a computation in a small
    state-and-exception monad over a [world] that holds the scripted network,
    the pending console input and the chronological trace of what the
    program did (requests, sleeps, prompts, printed lines). *)

From Stdlib Require Import ZArith List String Ascii Bool Lia QArith_base.
Import ListNotations.
Set Warnings "-register-all".
Local Open Scope string_scope.
Local Open Scope Z_scope.

(** ** Python strings

    A [str] is modelled as a Rocq [string] whose characters are the code
    points below 256.  [strip] and [lower] follow Python on that range. *)

Module PyStr.

(** [str.isspace] on code points below 256: TAB..CR, FS..US, space, NEL, NBSP. *)
Definition is_space (c : ascii) : bool :=
  let n := N_of_ascii c in
  (((9 <=? n) && (n <=? 13)) || ((28 <=? n) && (n <=? 32))
   || (n =? 133) || (n =? 160))%N.

Fixpoint lstrip (s : string) : string :=
  match s with
  | EmptyString => EmptyString
  | String c t => if is_space c then lstrip t else s
  end.

Fixpoint rstrip (s : string) : string :=
  match s with
  | EmptyString => EmptyString
  | String c t =>
      match rstrip t with
      | EmptyString => if is_space c then EmptyString else String c EmptyString
      | t' => String c t'
      end
  end.

Definition strip (s : string) : string := rstrip (lstrip s).

(** [str.lower] on code points below 256: A..Z and the Latin-1 capitals
    (0xC0..0xDE without the multiplication sign 0xD7) move up by 32. *)
Definition lower_char (c : ascii) : ascii :=
  let n := N_of_ascii c in
  if (((65 <=? n) && (n <=? 90))
      || ((192 <=? n) && (n <=? 222) && negb (n =? 215)))%N
  then ascii_of_N (n + 32) else c.

Fixpoint lower (s : string) : string :=
  match s with
  | EmptyString => EmptyString
  | String c t => String (lower_char c) (lower t)
  end.

(** [s[:n]] for a non-negative [n]. *)
Definition prefix_slice (n : nat) (s : string) : string := substring 0 n s.

(** [not s] for a string. *)
Definition is_empty (s : string) : bool :=
  match s with EmptyString => true | _ => false end.

End PyStr.

(** ** Python values

    What [response.json()] produces and what the script passes around: the
    JSON fragment of Python's objects.  A [dict] keeps its items in insertion
    order; Python's [None] and JSON's [null] are the same value.

    A [str] value is a sequence of code points.  [VStr s] is a string whose
    code points are all below 256.  [VWide before high after] is any other
    string: the code points of [before], then its first code point from 256
    on, [256 + high], then the code points [after], whatever they are. *)

Inductive value : Type :=
| VNone
| VBool (b : bool)
| VInt (n : Z)
| VFloat (q : Q)
| VStr (s : string)
| VWide (before : string) (high : N) (after : list N)
| VList (items : list value)
| VDict (items : list (string * value)).

(** Exceptions the script can meet.  All but [SystemExit] derive from
    Python's [Exception]. *)
Inductive exn : Type :=
| RequestException (msg : string)
| HTTPError (status_code : Z)
| JSONDecodeError
| AttributeError
| KeyError (key : string)
| TypeError
| EOFError
| UnicodeEncodeError
| SystemExit (code : Z).

Definition is_Exception (e : exn) : bool :=
  match e with SystemExit _ => false | _ => true end.

Inductive result (A : Type) : Type :=
| Ok (a : A)
| Raise (e : exn).
Arguments Ok {A} a.
Arguments Raise {A} e.

Module Py.

(** Truth value testing: [None], [False], zero, and empty containers are false. *)
Definition truthy (v : value) : bool :=
  match v with
  | VNone => false
  | VBool b => b
  | VInt n => negb (n =? 0)
  | VFloat q => negb (Qnum q =? 0)
  | VStr s => negb (PyStr.is_empty s)
  | VWide _ _ _ => true
  | VList l => match l with [] => false | _ => true end
  | VDict m => match m with [] => false | _ => true end
  end.

Fixpoint lookup (k : string) (m : list (string * value)) : option value :=
  match m with
  | [] => None
  | (k', v) :: rest => if String.eqb k k' then Some v else lookup k rest
  end.

(** [v.get(k, default)]: only a dict has the method. *)
Definition get (v : value) (k : string) (default : value) : result value :=
  match v with
  | VDict m => Ok (match lookup k m with Some x => x | None => default end)
  | _ => Raise AttributeError
  end.

(** [v[k]] with a string key. *)
Definition getitem (v : value) (k : string) : result value :=
  match v with
  | VDict m => match lookup k m with Some x => Ok x | None => Raise (KeyError k) end
  | _ => Raise TypeError
  end.

(** [len(v)]. *)
Definition len (v : value) : result Z :=
  match v with
  | VStr s => Ok (Z.of_nat (String.length s))
  | VWide before _ after =>
      Ok (Z.of_nat (String.length before + 1 + List.length after))
  | VList l => Ok (Z.of_nat (List.length l))
  | VDict m => Ok (Z.of_nat (List.length m))
  | _ => Raise TypeError
  end.

Fixpoint chars (s : string) : list value :=
  match s with
  | EmptyString => []
  | String c t => VStr (String c EmptyString) :: chars t
  end.

(** The one-character string of a code point. *)
Definition char_of_code (n : N) : value :=
  if (n <? 256)%N then VStr (String (ascii_of_N n) EmptyString)
  else VWide EmptyString (n - 256) [].

(** [for x in v]: a list yields its items, a dict its keys, a string its
    characters. *)
Definition iter (v : value) : result (list value) :=
  match v with
  | VList l => Ok l
  | VDict m => Ok (map (fun kv => VStr (fst kv)) m)
  | VStr s => Ok (chars s)
  | VWide before high after =>
      Ok (chars before ++ VWide EmptyString high [] :: map char_of_code after)%list
  | _ => Raise TypeError
  end.

(** [v.keys()]. *)
Definition keys (v : value) : result (list string) :=
  match v with
  | VDict m => Ok (map fst m)
  | _ => Raise AttributeError
  end.

(** [v == s] for a string literal [s] of the script, whose code points are
    all below 256: no [VWide] string equals it. *)
Definition eq_str (v : value) (s : string) : bool :=
  match v with VStr t => String.eqb t s | _ => false end.

(** A surrogate code point, U+D800..U+DFFF: UTF-8 has no encoding for it. *)
Definition is_surrogate (n : N) : bool := ((55296 <=? n) && (n <=? 57343))%N.

(** Whether [str(v)], the text an f-string puts for [v], can be written to
    the console, a UTF-8 text stream: only a string value is put as it is,
    and it can be written unless it holds a surrogate; everything else is
    put through [repr], which escapes such code points. *)
Definition encodable (v : value) : bool :=
  match v with
  | VWide _ high after =>
      negb (is_surrogate (256 + high)) && forallb (fun n => negb (is_surrogate n)) after
  | _ => true
  end.

(** [range(lo, hi)]. *)
Definition range (lo hi : Z) : list Z :=
  map (fun i => lo + Z.of_nat i) (seq 0 (Z.to_nat (hi - lo))).

End Py.

(** ** The console, the network and the trace *)

Inductive url : Type :=
| UrlTools                                  (* {API_BASE_URL}/v1/mcp/tools *)
| UrlRetrieve                               (* {API_BASE_URL}/v1/mcp/retrieve *)
| UrlRetrieveStatus (request_id : value)    (* {API_BASE_URL}/v1/mcp/retrieve/{request_id} *)
| UrlGiven (u : value).                     (* a URL handed over by the server *)

Inductive request : Type :=
| ReqGet (u : url)
| ReqPost (u : url) (body : value).

(** A [requests.Response]: its status code, its body as text, and what
    [response.json()] makes of the body ([None] when it does not parse). *)
Record response : Type := mkResponse {
  status_code : Z;
  text : string;
  json_body : option value
}.

Inductive http_outcome : Type :=
| NetError (msg : string)
| Response (r : response).

Inductive prompt : Type :=
| PromptNone | PromptApiKey | PromptUrl | PromptForceRefresh | PromptMode
| PromptDownload.

(** One constructor per [print] call of the script, with the values its
    f-string interpolates. *)
Inductive line : Type :=
| LBannerTop | LBannerTitle | LBannerSubtitle | LBannerBottom | LBlank
| LRunError (e : exn) | LStackTrace | LPressEnter
| LStep1 | LFoundTools (n : Z) | LTool (name description : value) | LNoTools
| LSeparator
| LStep2 (u : string) | LForcing | LWillUseCache | LMode (mode : string)
| LSubmitFailed | LSubmitted
| LRequestId (v : value) | LSubmitStatus (v : value) | LEstimatedWait (v : value)
| LStep3 | LGetResultsFailed
| LRetrievalCompleted
| LResultStatus (v : value) | LResultUrl (v : value) | LCompletedAt (v : value)
| LContentAvailable | LPageDataUrl (v : value) | LContentHash (v : value)
| LArtifacts (names : list string) | LMetrics (names : list string)
| LDemoCompleted
| LToolsError (e : exn)
| LApiError (status_code : Z) (body : string) | LSubmitError (e : exn)
| LDeserializeFailed (attempt max_attempts : Z)
| LPollStatus (attempt max_attempts : Z) (status message : value)
| LPollErrorField (error : value)
| LPollError (attempt max_attempts : Z) (e : exn)
| LTimeout
| LDownloading | LPageContentHeader | LRule | LText (s : string)
| LDownloadError (e : exn)
| LKeyRequired | LUsage | LUsageArg | LUsageOr | LUsagePrompt.

(** Whether the console can encode the line: the interpolated values
    decide; the exception texts, the strings read from the console or made
    by [json.dumps], and the fixed texts can always be written. *)
Definition line_encodable (l : line) : bool :=
  match l with
  | LTool name description => Py.encodable name && Py.encodable description
  | LRequestId v | LSubmitStatus v | LEstimatedWait v
  | LResultStatus v | LResultUrl v | LCompletedAt v
  | LPageDataUrl v | LContentHash v
  | LPollErrorField v => Py.encodable v
  | LPollStatus _ _ status message => Py.encodable status && Py.encodable message
  | _ => true
  end.

Inductive event : Type :=
| EPrint (l : line)
| EInput (p : prompt)
| ENewSession (api_key : string)
| EGet (u : url)
| EPost (u : url) (body : value)
| ESleep (seconds : Z)
| ETraceback.

(** [net k req] is what the [k]-th request of the run meets when it is
    [req]; [stdin] holds the lines still to be typed. *)
Record world : Type := mkWorld {
  net : nat -> request -> http_outcome;
  stdin : list string;
  sent : nat;
  trace : list event
}.

Definition emit_event (e : event) (w : world) : world :=
  mkWorld (net w) (stdin w) (sent w) (trace w ++ [e]).

Definition count_request (w : world) : world :=
  mkWorld (net w) (stdin w) (S (sent w)) (trace w).

Definition M (A : Type) : Type := world -> result A * world.

Definition ret {A} (a : A) : M A := fun w => (Ok a, w).

Definition raise {A} (e : exn) : M A := fun w => (Raise e, w).

Definition bind {A B} (m : M A) (f : A -> M B) : M B :=
  fun w =>
    match m w with
    | (Ok a, w') => f a w'
    | (Raise e, w') => (Raise e, w')
    end.

Definition lift {A} (r : result A) : M A := fun w => (r, w).

(** [try: body  except Exception as e: handler e]. *)
Definition try_except {A} (body : M A) (handler : exn -> M A) : M A :=
  fun w =>
    match body w with
    | (Ok a, w') => (Ok a, w')
    | (Raise e, w') => if is_Exception e then handler e w' else (Raise e, w')
    end.

Declare Scope py_scope.
Delimit Scope py_scope with py.
Notation "x <- m ;; k" := (bind m (fun x => k))
  (at level 61, m at next level, right associativity) : py_scope.
Notation "m ;; k" := (bind m (fun _ => k))
  (at level 61, right associativity) : py_scope.
Local Open Scope py_scope.

(** [print(...)] of one line: the console is a UTF-8 text stream, and
    writing a text it cannot encode raises [UnicodeEncodeError] before
    anything is written. *)
Definition print (l : line) : M unit :=
  fun w =>
    if line_encodable l then (Ok tt, emit_event (EPrint l) w)
    else (Raise UnicodeEncodeError, w).

Definition sleep (seconds : Z) : M unit :=
  fun w => (Ok tt, emit_event (ESleep seconds) w).

Definition traceback_print_exc : M unit :=
  fun w => (Ok tt, emit_event ETraceback w).

(** [input(prompt)]: the next line without its newline, [EOFError] at end of
    input. *)
Definition input (p : prompt) : M string :=
  fun w =>
    let w' := emit_event (EInput p) w in
    match stdin w with
    | [] => (Raise EOFError, w')
    | l :: rest => (Ok l, mkWorld (net w') rest (sent w') (trace w'))
    end.

Definition send (req : request) (ev : event) : M response :=
  fun w =>
    let w' := count_request (emit_event ev w) in
    match net w (sent w) req with
    | NetError msg => (Raise (RequestException msg), w')
    | Response r => (Ok r, w')
    end.

Definition session_get (u : url) : M response := send (ReqGet u) (EGet u).

Definition session_post (u : url) (body : value) : M response :=
  send (ReqPost u body) (EPost u body).

(** [Response.raise_for_status] of requests: it raises [HTTPError] for a
    status code in 400..599, and [Response.ok] is true when it does not. *)
Definition is_error_status (code : Z) : bool := (400 <=? code) && (code <? 600).

Definition response_ok (r : response) : bool := negb (is_error_status (status_code r)).

Definition raise_for_status (r : response) : M unit :=
  if is_error_status (status_code r) then raise (HTTPError (status_code r))
  else ret tt.

Definition response_json (r : response) : M value :=
  match json_body r with
  | Some v => ret v
  | None => raise JSONDecodeError
  end.

(** ** ViewEngineDemo *)

(** The body of the [try] of one iteration of [poll_for_results]:
    [Some v] when the iteration executes [return v], [None] when it reaches
    its end or [continue]. *)
Definition poll_iteration (request_id : value) (attempt max_attempts : Z)
  : M (option value) :=
  response <- session_get (UrlRetrieveStatus request_id) ;;
  raise_for_status response ;;
  result <- response_json response ;;
  if negb (Py.truthy result) then
    print (LDeserializeFailed attempt max_attempts) ;;
    sleep 2 ;;
    ret None
  else
    status <- lift (Py.get result "status" (VStr "unknown")) ;;
    message <- lift (Py.get result "message" (VStr "")) ;;
    print (LPollStatus attempt max_attempts status message) ;;
    if Py.eq_str status "complete" then ret (Some result)
    else if Py.eq_str status "failed" || Py.eq_str status "canceled" then
      error <- lift (Py.get result "error" (VStr "Unknown error")) ;;
      print (LPollErrorField error) ;;
      ret (Some result)
    else
      sleep 2 ;;
      ret None.

(** One pass through the body of the [for] loop: the [try] and its
    [except Exception] handler. *)
Definition poll_attempt (request_id : value) (attempt max_attempts : Z)
  : M (option value) :=
  try_except (poll_iteration request_id attempt max_attempts)
    (fun e =>
       print (LPollError attempt max_attempts e) ;;
       sleep 2 ;;
       ret None).

(** The [for attempt in ...] loop over the attempts still to run. *)
Fixpoint poll_loop (request_id : value) (max_attempts : Z) (attempts : list Z)
  : M (option value) :=
  match attempts with
  | [] => ret None
  | attempt :: rest =>
      r <- poll_attempt request_id attempt max_attempts ;;
      match r with
      | Some v => ret (Some v)
      | None => poll_loop request_id max_attempts rest
      end
  end.

(** What follows the loop: the value it returned, or the timeout. *)
Definition after_poll_loop (r : option value) : M value :=
  match r with
  | Some v => ret v
  | None => print LTimeout ;; ret VNone
  end.

Definition poll_for_results (request_id : value) (max_attempts : Z) : M value :=
  r <- poll_loop request_id max_attempts (Py.range 1 (max_attempts + 1)) ;;
  after_poll_loop r.

Definition get_mcp_tools : M value :=
  try_except
    (response <- session_get UrlTools ;;
     raise_for_status response ;;
     data <- response_json response ;;
     lift (Py.get data "tools" VNone))
    (fun e => print (LToolsError e) ;; ret VNone).

(** The [request_body] dict of [submit_retrieve_request]. *)
Definition request_body (url : string) (force_refresh : bool) (mode : string)
  : value :=
  VDict [("url", VStr url);
         ("timeoutSeconds", VInt 60);
         ("forceRefresh", VBool force_refresh);
         ("mode", VStr mode)].

Definition submit_retrieve_request (url : string) (force_refresh : bool)
  (mode : string) : M value :=
  try_except
    (let request_body := request_body url force_refresh mode in
     response <- session_post UrlRetrieve request_body ;;
     if negb (response_ok response) then
       print (LApiError (status_code response) (text response)) ;;
       ret VNone
     else
       raise_for_status response ;;
       response_json response)
    (fun e => print (LSubmitError e) ;; ret VNone).

(** The [for tool in tools] loop of [run_demo]. *)
Fixpoint print_tools (tools : list value) : M unit :=
  match tools with
  | [] => ret tt
  | tool :: rest =>
      name <- lift (Py.getitem tool "name") ;;
      description <- lift (Py.getitem tool "description") ;;
      print (LTool name description) ;;
      print_tools rest
  end.

(** [ViewEngineDemo(api_key)]: a session whose headers carry the key. *)
Definition new_demo (api_key : string) : M unit :=
  fun w => (Ok tt, emit_event (ENewSession api_key) w).

Section Demo.

(** [json.dumps(_, indent=2)] of Python's standard library. *)
Variable json_dumps : value -> string.

Definition download_page_data (page_data_url : value) : M unit :=
  try_except
    (print LDownloading ;;
     response <- session_get (UrlGiven page_data_url) ;;
     raise_for_status response ;;
     page_data <- response_json response ;;
     print LPageContentHeader ;;
     print LRule ;;
     let pretty_json := json_dumps page_data in
     (if 500 <? Z.of_nat (String.length pretty_json) then
        print (LText (PyStr.prefix_slice 500 pretty_json ++ "..."))
      else
        print (LText pretty_json)) ;;
     print LRule)
    (fun e => print (LDownloadError e)).

(** What [run_demo] does with a truthy [result["content"]]. *)
Definition show_content (result : value) : M unit :=
  content <- lift (Py.getitem result "content") ;;
  print LContentAvailable ;;
  page_data_url <- lift (Py.getitem content "pageDataUrl") ;;
  print (LPageDataUrl page_data_url) ;;
  content_hash <- lift (Py.get content "contentHash" (VStr "N/A")) ;;
  print (LContentHash content_hash) ;;
  artifacts <- lift (Py.get content "artifacts" VNone) ;;
  (if Py.truthy artifacts then
     a <- lift (Py.getitem content "artifacts") ;;
     names <- lift (Py.keys a) ;;
     print (LArtifacts names)
   else ret tt) ;;
  metrics <- lift (Py.get content "metrics" VNone) ;;
  (if Py.truthy metrics then
     m <- lift (Py.getitem content "metrics") ;;
     names <- lift (Py.keys m) ;;
     print (LMetrics names)
   else ret tt) ;;
  download <- input PromptDownload ;;
  if String.eqb (PyStr.lower (PyStr.strip download)) "y" then
    u <- lift (Py.getitem content "pageDataUrl") ;;
    download_page_data u
  else ret tt.

(** [run_demo] from the poll on, given the truthy answer to the submission. *)
Definition poll_and_report (retrieve_response : value) : M unit :=
  print LSubmitted ;;
  request_id <- lift (Py.getitem retrieve_response "requestId") ;;
  print (LRequestId request_id) ;;
  status <- lift (Py.getitem retrieve_response "status") ;;
  print (LSubmitStatus status) ;;
  wait <- lift (Py.getitem retrieve_response "estimatedWaitTimeSeconds") ;;
  print (LEstimatedWait wait) ;;
  print LSeparator ;;
  print LStep3 ;;
  request_id <- lift (Py.getitem retrieve_response "requestId") ;;
  result <- poll_for_results request_id 60 ;;
  if negb (Py.truthy result) then print LGetResultsFailed
  else
    print LRetrievalCompleted ;;
    status <- lift (Py.getitem result "status") ;;
    print (LResultStatus status) ;;
    u <- lift (Py.getitem result "url") ;;
    print (LResultUrl u) ;;
    completed_at <- lift (Py.get result "completedAt" (VStr "N/A")) ;;
    print (LCompletedAt completed_at) ;;
    content <- lift (Py.get result "content" VNone) ;;
    (if Py.truthy content then show_content result else ret tt) ;;
    print LSeparator ;;
    print LDemoCompleted.

Definition run_demo : M unit :=
  print LStep1 ;;
  tools <- get_mcp_tools ;;
  (if Py.truthy tools then
     n <- lift (Py.len tools) ;;
     print (LFoundTools n) ;;
     items <- lift (Py.iter tools) ;;
     print_tools items
   else print LNoTools) ;;
  print LSeparator ;;
  url_input <- input PromptUrl ;;
  let url := PyStr.strip url_input in
  let url := if PyStr.is_empty url then "https://example.com" else url in
  force_refresh_input <- input PromptForceRefresh ;;
  let force_refresh :=
    String.eqb (PyStr.lower (PyStr.strip force_refresh_input)) "y" in
  mode_line <- input PromptMode ;;
  let mode_input := PyStr.lower (PyStr.strip mode_line) in
  let mode := if String.eqb mode_input "community" then "community" else "private" in
  print (LStep2 url) ;;
  (if force_refresh then print LForcing else print LWillUseCache) ;;
  print (LMode mode) ;;
  retrieve_response <- submit_retrieve_request url force_refresh mode ;;
  if negb (Py.truthy retrieve_response) then print LSubmitFailed
  else poll_and_report retrieve_response.

Definition run : M unit :=
  print LBannerTop ;;
  print LBannerTitle ;;
  print LBannerSubtitle ;;
  print LBannerBottom ;;
  print LBlank ;;
  try_except run_demo
    (fun e =>
       print (LRunError e) ;;
       print LStackTrace ;;
       traceback_print_exc) ;;
  print LPressEnter ;;
  input PromptNone ;;
  ret tt.

(** [main], with [sys.argv] as its argument; [sys.exit(1)] raises
    [SystemExit 1], which nothing catches. *)
Definition main (argv : list string) : M unit :=
  api_key <- (if 1 <? Z.of_nat (List.length argv) then ret (nth 1 argv "")
              else
                key_line <- input PromptApiKey ;;
                ret (PyStr.strip key_line)) ;;
  if PyStr.is_empty api_key then
    print LKeyRequired ;;
    print LUsage ;;
    print LUsageArg ;;
    print LUsageOr ;;
    print LUsagePrompt ;;
    raise (SystemExit 1)
  else
    new_demo api_key ;;
    run.

End Demo.

(** ** Vocabulary of the statements *)

(** The world after [n] more requests and the events [evs]. *)
Definition advance (w : world) (n : nat) (evs : list event) : world :=
  mkWorld (net w) (stdin w) (n + sent w) (trace w ++ evs).

(** What the program did between two worlds of one run. *)
Definition events_since (w w' : world) : list event :=
  skipn (List.length (trace w)) (trace w').

(** The payload is an object whose "status" field is the string [s]. *)
Definition has_status (payload : value) (s : string) : Prop :=
  exists items,
    payload = VDict items /\ Py.lookup "status" items = Some (VStr s).

(** The value of [payload.get(key, default)] for an object payload. *)
Definition field_or (payload : value) (key : string) (default : value) : value :=
  match Py.get payload key default with
  | Ok v => v
  | Raise _ => default
  end.

(** The text the poll prints as the message of a payload can be written to
    the console. *)
Definition message_printable (payload : value) : Prop :=
  Py.encodable (field_or payload "message" (VStr "")) = true.

(** The text the poll prints as the error of a payload can be written to
    the console. *)
Definition error_printable (payload : value) : Prop :=
  Py.encodable (field_or payload "error" (VStr "Unknown error")) = true.

(** The request every poll sends. *)
Definition poll_request (request_id : value) : request :=
  ReqGet (UrlRetrieveStatus request_id).

(** The value an iteration of the poll binds to [status], when it gets
    that far: the response passed the status check, parsed, and is a truthy
    object. *)
Definition seen_status (o : http_outcome) : option value :=
  match o with
  | NetError _ => None
  | Response r =>
      if is_error_status (status_code r) then None
      else match json_body r with
           | None => None
           | Some result =>
               if Py.truthy result then
                 match Py.get result "status" (VStr "unknown") with
                 | Ok status => Some status
                 | Raise _ => None
                 end
               else None
           end
  end.

Definition is_terminal (status : value) : bool :=
  Py.eq_str status "complete" || Py.eq_str status "failed"
  || Py.eq_str status "canceled".

Definition is_sleep (e : event) : bool :=
  match e with ESleep _ => true | _ => false end.

Definition is_http (e : event) : bool :=
  match e with EGet _ | EPost _ _ => true | _ => false end.

(** Requests and sleeps, without the printing. *)
Definition actions (evs : list event) : list event :=
  filter (fun e => is_http e || is_sleep e) evs.

(** The events of one iteration that does not return: the request, one
    printed line, the wait. *)
Definition waiting_round (request_id : value) (l : line) : list event :=
  [EGet (UrlRetrieveStatus request_id); EPrint l; ESleep 2].

(** The events of one iteration that does not return, with all the lines it
    prints: the request, the lines, the wait. *)
Definition waiting_events (request_id : value) (ls : list line) : list event :=
  EGet (UrlRetrieveStatus request_id) :: (map EPrint ls ++ [ESleep 2])%list.

(** The event is not a POST request. *)
Definition no_post (e : event) : Prop :=
  match e with EPost _ _ => False | _ => True end.

(** If the event is a POST request, it carries [body]. *)
Definition posts_only (body : value) (e : event) : Prop :=
  match e with EPost _ b => b = body | _ => True end.

(** [w'] comes after [w] in a run, through events that all satisfy [P]. *)
Definition extends (P : event -> Prop) (w w' : world) : Prop :=
  exists evs, trace w' = (trace w ++ evs)%list /\ Forall P evs.

(** Whatever its result, the computation only adds events that satisfy [P]. *)
Definition emitting (P : event -> Prop) {A} (m : M A) : Prop :=
  forall w, extends P w (snd (m w)).

(** The computation reads nothing from the console and sends no POST. *)
Definition quiet {A} (m : M A) : Prop :=
  forall w, stdin (snd (m w)) = stdin w /\ extends no_post w (snd (m w)).

(** The mode [run_demo] makes of the line typed at the mode prompt. *)
Definition normalised_mode (mode_line : string) : string :=
  if String.eqb (PyStr.lower (PyStr.strip mode_line)) "community"
  then "community" else "private".

(** ** Vocabulary of further statements *)

Definition is_post (e : event) : bool :=
  match e with EPost _ _ => true | _ => false end.

(** The payload is an object whose status is one of the three on which the
    poll returns. *)
Definition has_terminal_status (payload : value) : Prop :=
  has_status payload "complete" \/ has_status payload "failed"
  \/ has_status payload "canceled".


(** The computation raises nothing but instances of [Exception]. *)
Definition never_exits {A} (m : M A) : Prop :=
  forall w e, fst (m w) = Raise e -> is_Exception e = true.

(** The URL [run_demo] makes of the line typed at the URL prompt. *)
Definition resolved_url (url_line : string) : string :=
  if PyStr.is_empty (PyStr.strip url_line) then "https://example.com"
  else PyStr.strip url_line.

(** Whether [run_demo] takes the line typed at a y/n prompt for a yes. *)
Definition is_yes (answer_line : string) : bool :=
  String.eqb (PyStr.lower (PyStr.strip answer_line)) "y".

(** The computation reads nothing from the console and sends nothing. *)
Definition idle {A} (m : M A) : Prop :=
  forall w, stdin (snd (m w)) = stdin w /\ sent (snd (m w)) = sent w.

(** Any event at all. *)
Definition any_event (e : event) : Prop := True.

(** The event builds a client. *)
Definition is_new_session (e : event) : bool :=
  match e with ENewSession _ => true | _ => false end.

(** ** Sample servers and runs, for evaluating the program *)

Module Sample.

(** A world at the start of a run: the server answers its [k]-th request
    with [answers k], whatever the request; [lines] are typed at the
    console. *)
Definition scripted (answers : nat -> http_outcome) (lines : list string) : world :=
  mkWorld (fun k _ => answers k) lines 0 [].

Definition json_response (code : Z) (payload : value) : http_outcome :=
  Response (mkResponse code "<json>" (Some payload)).

Definition status_payload (s : string) : value :=
  VDict [("status", VStr s); ("url", VStr "https://example.com")].

Definition request_id : value := VStr "r1".

(** Answers [first] once, then [others] for ever. *)
Definition first_then (first others : http_outcome) (k : nat) : http_outcome :=
  match k with O => first | S _ => others end.

(** Every poll is answered 200 with a payload whose status is [s]. *)
Definition always_status (s : string) : world :=
  scripted (fun _ => json_response 200 (status_payload s)) [].

(** The first poll sees "running", the later ones see [s]. *)
Definition running_then (s : string) : world :=
  scripted (first_then (json_response 200 (status_payload "running"))
              (json_response 200 (status_payload s))) [].

(** Every answer has the status code [code] and a payload with status [s]. *)
Definition error_with_status (code : Z) (s : string) : world :=
  scripted (fun _ => json_response code (status_payload s)) [].

(** The one-character string of the lone surrogate U+D83D, which JSON can
    carry as an escape and UTF-8 cannot encode. *)
Definition lone_surrogate : value := VWide "" (55357 - 256) [].

(** Every answer is 200 with a payload whose status is [s] and whose field
    [key] is the lone surrogate. *)
Definition always_unprintable (s key : string) : world :=
  scripted (fun _ => json_response 200
                       (VDict [("status", VStr s); (key, lone_surrogate)])) [].

(** The network is down. *)
Definition unreachable : world :=
  scripted (fun _ => NetError "connection refused") [].

(** Every answer is 200 with the empty object. *)
Definition always_empty_object : world :=
  scripted (fun _ => json_response 200 (VDict [])) [].

(** The answer to a submission that was accepted. *)
Definition accepted : value :=
  VDict [("requestId", VStr "r1"); ("status", VStr "queued");
         ("estimatedWaitTimeSeconds", VInt 5)].

(** A server that works: it lists one tool, accepts the submission, and
    reports the retrieval complete at the first poll. *)
Definition friendly (k : nat) : http_outcome :=
  match k with
  | O => json_response 200
           (VDict [("tools",
                    VList [VDict [("name", VStr "retrieve");
                                  ("description", VStr "Retrieve a page")]])])
  | S O => json_response 200 accepted
  | S (S _) => json_response 200 (status_payload "complete")
  end.

(** A run against the friendly server in which [lines] are typed. *)
Definition session (lines : list string) : world := scripted friendly lines.

(** A stand-in for [json.dumps]: every payload prints as 600 characters. *)
Definition long_dumps (_ : value) : string :=
  String.concat "" (repeat "0123456789" 60).

(** A stand-in for [json.dumps]: every payload prints as two characters. *)
Definition short_dumps (_ : value) : string := "{}".

End Sample.

(** * Properties *)

Local Open Scope list_scope.

(** ** Worlds and traces *)

Lemma advance_zero (w : world) : advance w 0 [] = w.
Proof.
  destruct w as [n i s t]. unfold advance. simpl. now rewrite app_nil_r.
Qed.

Lemma advance_advance (w : world) n m evs evs' :
  advance (advance w n evs) m evs' = advance w (m + n) (evs ++ evs').
Proof.
  unfold advance. simpl. f_equal; [lia | now rewrite app_assoc].
Qed.

Lemma emit_event_advance (e : event) (w : world) n evs :
  emit_event e (advance w n evs) = advance w n (evs ++ [e]).
Proof. unfold emit_event, advance. simpl. now rewrite app_assoc. Qed.

Lemma emit_event_start (e : event) (w : world) :
  emit_event e w = advance w 0 [e].
Proof. reflexivity. Qed.

Lemma count_request_advance (w : world) n evs :
  count_request (advance w n evs) = advance w (S n) evs.
Proof. reflexivity. Qed.

Lemma events_since_advance (w : world) n evs :
  events_since w (advance w n evs) = evs.
Proof.
  unfold events_since, advance. simpl.
  rewrite skipn_app, skipn_all, Nat.sub_diag. reflexivity.
Qed.

(** Normalises a world built by the primitives into [advance w n evs]. *)
Ltac settle_world :=
  repeat first
    [ rewrite emit_event_advance
    | rewrite count_request_advance
    | rewrite advance_advance
    | rewrite emit_event_start ];
  simpl app; simpl Nat.add.

(** ** [range] *)

Lemma range_length (lo hi : Z) :
  List.length (Py.range lo hi) = Z.to_nat (hi - lo).
Proof. unfold Py.range. now rewrite length_map, length_seq. Qed.

Lemma range_split (lo hi : Z) (pre post : list Z) (a : Z) :
  Py.range lo hi = pre ++ a :: post ->
  a = lo + Z.of_nat (List.length pre)
  /\ Z.of_nat (List.length post) = hi - 1 - a.
Proof.
  intros E.
  assert (L : List.length (Py.range lo hi) = (List.length pre + S (List.length post))%nat).
  { rewrite E, length_app. reflexivity. }
  rewrite range_length in L.
  assert (N : nth (List.length pre) (Py.range lo hi) 0 = a).
  { rewrite E, nth_middle. reflexivity. }
  unfold Py.range in N.
  rewrite (nth_indep _ 0 (lo + Z.of_nat 0))
    in N by (rewrite length_map, length_seq; lia).
  change (lo + Z.of_nat 0) with ((fun i => lo + Z.of_nat i) 0%nat) in N.
  rewrite map_nth, seq_nth in N by lia.
  simpl in N. split; lia.
Qed.

(** ** One attempt of the poll *)

Section PollAttempt.

Variables (request_id : value) (attempt max_attempts : Z).

(** The transport fails: the handler prints and waits. *)
Lemma poll_attempt_net_error (w : world) (msg : string) :
  net w (sent w) (poll_request request_id) = NetError msg ->
  poll_attempt request_id attempt max_attempts w =
    (Ok None,
     advance w 1 (waiting_round request_id (LPollError attempt max_attempts (RequestException msg)))).
Proof.
  intros H.
  unfold poll_attempt, try_except, poll_iteration, bind, session_get, send.
  unfold poll_request in H. rewrite H. simpl.
  unfold print, sleep, ret, bind. settle_world. reflexivity.
Qed.

(** The status code is an error: [raise_for_status] raises. *)
Lemma poll_attempt_http_error (w : world) (r : response) :
  net w (sent w) (poll_request request_id) = Response r ->
  is_error_status (status_code r) = true ->
  poll_attempt request_id attempt max_attempts w =
    (Ok None,
     advance w 1 (waiting_round request_id (LPollError attempt max_attempts (HTTPError (status_code r))))).
Proof.
  intros H E.
  unfold poll_attempt, try_except, poll_iteration, bind, session_get, send.
  unfold poll_request in H. rewrite H. simpl.
  unfold raise_for_status. rewrite E. simpl.
  unfold print, sleep, ret, bind. settle_world. reflexivity.
Qed.

(** The body does not parse: [response.json()] raises. *)
Lemma poll_attempt_unparsable (w : world) (r : response) :
  net w (sent w) (poll_request request_id) = Response r ->
  is_error_status (status_code r) = false ->
  json_body r = None ->
  poll_attempt request_id attempt max_attempts w =
    (Ok None, advance w 1 (waiting_round request_id (LPollError attempt max_attempts JSONDecodeError))).
Proof.
  intros H E J.
  unfold poll_attempt, try_except, poll_iteration, bind, session_get, send.
  unfold poll_request in H. rewrite H. simpl.
  unfold raise_for_status, response_json. rewrite E, J. simpl.
  unfold print, sleep, ret, bind. settle_world. reflexivity.
Qed.

(** The body parses to a falsy value. *)
Lemma poll_attempt_falsy (w : world) (r : response) (result : value) :
  net w (sent w) (poll_request request_id) = Response r ->
  is_error_status (status_code r) = false ->
  json_body r = Some result ->
  Py.truthy result = false ->
  poll_attempt request_id attempt max_attempts w =
    (Ok None, advance w 1 (waiting_round request_id (LDeserializeFailed attempt max_attempts))).
Proof.
  intros H E J T.
  unfold poll_attempt, try_except, poll_iteration, bind, session_get, send.
  unfold poll_request in H. rewrite H. simpl.
  unfold raise_for_status, response_json. rewrite E, J. simpl.
  rewrite T. simpl.
  unfold print, sleep, ret, bind. settle_world. reflexivity.
Qed.

(** The body parses to a truthy value without a [get] method. *)
Lemma poll_attempt_not_dict (w : world) (r : response) (result : value) :
  net w (sent w) (poll_request request_id) = Response r ->
  is_error_status (status_code r) = false ->
  json_body r = Some result ->
  Py.truthy result = true ->
  Py.get result "status" (VStr "unknown") = Raise AttributeError ->
  poll_attempt request_id attempt max_attempts w =
    (Ok None, advance w 1 (waiting_round request_id (LPollError attempt max_attempts AttributeError))).
Proof.
  intros H E J T G.
  unfold poll_attempt, try_except, poll_iteration, bind, session_get, send.
  unfold poll_request in H. rewrite H. simpl.
  unfold raise_for_status, response_json. rewrite E, J. simpl.
  rewrite T. simpl. unfold lift. rewrite G. simpl.
  unfold print, sleep, ret, bind. settle_world. reflexivity.
Qed.

(** The body parses to a truthy object and its status line can be printed:
    what happens next depends on its status, and for a failed or canceled
    one on whether its error line can be printed too. *)
Lemma poll_attempt_object (w : world) (r : response) (items : list (string * value)) :
  net w (sent w) (poll_request request_id) = Response r ->
  is_error_status (status_code r) = false ->
  json_body r = Some (VDict items) ->
  items <> [] ->
  let result := VDict items in
  let status := match Py.lookup "status" items with Some s => s | None => VStr "unknown" end in
  let message := match Py.lookup "message" items with Some s => s | None => VStr "" end in
  let error := match Py.lookup "error" items with Some s => s | None => VStr "Unknown error" end in
  let shown := LPollStatus attempt max_attempts status message in
  line_encodable shown = true ->
  poll_attempt request_id attempt max_attempts w =
    if Py.eq_str status "complete" then
      (Ok (Some result),
       advance w 1 [EGet (UrlRetrieveStatus request_id); EPrint shown])
    else if Py.eq_str status "failed" || Py.eq_str status "canceled" then
      if Py.encodable error then
        (Ok (Some result),
         advance w 1 [EGet (UrlRetrieveStatus request_id); EPrint shown;
                      EPrint (LPollErrorField error)])
      else
        (Ok None,
         advance w 1 [EGet (UrlRetrieveStatus request_id); EPrint shown;
                      EPrint (LPollError attempt max_attempts UnicodeEncodeError);
                      ESleep 2])
    else (Ok None, advance w 1 (waiting_round request_id shown)).
Proof.
  intros H E J T. cbv zeta. intros P.
  unfold poll_attempt, try_except, poll_iteration, bind, session_get, send.
  unfold poll_request in H. rewrite H. simpl.
  unfold raise_for_status, response_json. rewrite E, J. simpl.
  destruct items as [|kv items']; [congruence|]. cbn [negb].
  unfold lift, Py.get.
  set (status := match Py.lookup "status" (kv :: items') with Some s => s | None => VStr "unknown" end) in *.
  set (message := match Py.lookup "message" (kv :: items') with Some s => s | None => VStr "" end) in *.
  set (error := match Py.lookup "error" (kv :: items') with Some s => s | None => VStr "Unknown error" end) in *.
  unfold print at 1. rewrite P.
  destruct (Py.eq_str status "complete").
  - unfold ret. settle_world. reflexivity.
  - destruct (Py.eq_str status "failed" || Py.eq_str status "canceled").
    + unfold print at 1. cbn [line_encodable].
      destruct (Py.encodable error).
      * unfold ret. settle_world. reflexivity.
      * cbn [is_Exception]. unfold print, sleep, ret. cbn [line_encodable].
        settle_world. reflexivity.
    + unfold sleep, ret. settle_world. reflexivity.
Qed.

(** The body parses to a truthy object whose status line cannot be
    printed: [print] raises, and the handler takes over. *)
Lemma poll_attempt_unprintable (w : world) (r : response)
  (items : list (string * value)) :
  net w (sent w) (poll_request request_id) = Response r ->
  is_error_status (status_code r) = false ->
  json_body r = Some (VDict items) ->
  items <> [] ->
  let status := match Py.lookup "status" items with Some s => s | None => VStr "unknown" end in
  let message := match Py.lookup "message" items with Some s => s | None => VStr "" end in
  line_encodable (LPollStatus attempt max_attempts status message) = false ->
  poll_attempt request_id attempt max_attempts w =
    (Ok None,
     advance w 1
       (waiting_round request_id
          (LPollError attempt max_attempts UnicodeEncodeError))).
Proof.
  intros H E J T. cbv zeta. intros P.
  unfold poll_attempt, try_except, poll_iteration, bind, session_get, send.
  unfold poll_request in H. rewrite H. simpl.
  unfold raise_for_status, response_json. rewrite E, J. simpl.
  destruct items as [|kv items']; [congruence|]. cbn [negb].
  unfold lift, Py.get.
  unfold print at 1. rewrite P. cbn [is_Exception].
  unfold print, sleep, ret. cbn [line_encodable]. settle_world. reflexivity.
Qed.

End PollAttempt.

(** ** The loop *)

Section PollLoop.

Variables (request_id : value) (max_attempts : Z).

Lemma poll_loop_app (pre post : list Z) (w : world) :
  poll_loop request_id max_attempts (pre ++ post) w =
    match poll_loop request_id max_attempts pre w with
    | (Ok None, w1) => poll_loop request_id max_attempts post w1
    | other => other
    end.
Proof.
  revert w. induction pre as [|a pre IH]; intros w; simpl.
  - reflexivity.
  - unfold bind.
    destruct (poll_attempt request_id a max_attempts w) as [[[v|]|e] w1];
      simpl; auto.
Qed.

(** The iteration reached after the attempts [pre] ran without returning. *)
Lemma poll_for_results_reaches (pre post : list Z) (attempt : Z) (w w1 : world) :
  Py.range 1 (max_attempts + 1) = pre ++ attempt :: post ->
  poll_loop request_id max_attempts pre w = (Ok None, w1) ->
  poll_for_results request_id max_attempts w =
    bind (poll_loop request_id max_attempts (attempt :: post)) after_poll_loop w1.
Proof.
  intros R P. unfold poll_for_results, bind at 1.
  rewrite R, poll_loop_app, P. reflexivity.
Qed.

(** An attempt either waits and hands over to the next one, or returns a
    truthy payload whose status it saw to be terminal, without waiting.  A
    waiting attempt prints one line, unless it saw a terminal status and
    could not print the error line. *)
Lemma poll_attempt_cases (attempt : Z) (w : world) :
  (exists ls,
      poll_attempt request_id attempt max_attempts w =
        (Ok None, advance w 1 (waiting_events request_id ls))
      /\ ((exists l, ls = [l])
          \/ (exists status,
                seen_status (net w (sent w) (poll_request request_id)) = Some status
                /\ is_terminal status = true)))
  \/ (exists result status evs,
        poll_attempt request_id attempt max_attempts w =
          (Ok (Some result),
           advance w 1 (EGet (UrlRetrieveStatus request_id) :: evs))
        /\ Py.truthy result = true
        /\ seen_status (net w (sent w) (poll_request request_id)) = Some status
        /\ is_terminal status = true
        /\ actions evs = []).
Proof.
  assert (One : forall l,
             poll_attempt request_id attempt max_attempts w =
               (Ok None, advance w 1 (waiting_round request_id l)) ->
             exists ls,
               poll_attempt request_id attempt max_attempts w =
                 (Ok None, advance w 1 (waiting_events request_id ls))
               /\ ((exists l', ls = [l'])
                   \/ (exists status,
                         seen_status (net w (sent w) (poll_request request_id))
                           = Some status
                         /\ is_terminal status = true))).
  { intros l H. exists [l]. split; [exact H|]. left. now exists l. }
  destruct (net w (sent w) (poll_request request_id)) as [msg|r] eqn:N.
  { left. eapply One.
    exact (poll_attempt_net_error request_id attempt max_attempts w msg N). }
  destruct (is_error_status (status_code r)) eqn:E.
  { left. eapply One.
    exact (poll_attempt_http_error request_id attempt max_attempts w r N E). }
  destruct (json_body r) as [result|] eqn:J.
  2:{ left. eapply One.
      exact (poll_attempt_unparsable request_id attempt max_attempts w r N E J). }
  destruct (Py.truthy result) eqn:T.
  2:{ left. eapply One.
      exact (poll_attempt_falsy request_id attempt max_attempts w r result N E J T). }
  destruct result as [| b | n | q | s | wb wh wa | l | items];
    try (left; eapply One;
         exact (poll_attempt_not_dict request_id attempt max_attempts w r _ N E J T eq_refl)).
  assert (NE : items <> []) by (destruct items; [discriminate | congruence]).
  set (status := match Py.lookup "status" items with Some s => s | None => VStr "unknown" end).
  set (message := match Py.lookup "message" items with Some s => s | None => VStr "" end).
  assert (S : seen_status (Response r) = Some status).
  { unfold seen_status. rewrite E, J, T. reflexivity. }
  destruct (line_encodable (LPollStatus attempt max_attempts status message)) eqn:L.
  2:{ left. eapply One.
      exact (poll_attempt_unprintable request_id attempt max_attempts w r items N E J NE L). }
  pose proof (poll_attempt_object request_id attempt max_attempts w r items N E J NE L) as P.
  cbv zeta in P. fold status message in P.
  destruct (Py.eq_str status "complete") eqn:C.
  { right. do 3 eexists. split; [exact P|].
    split; [exact T|]. split; [exact S|].
    split; [unfold is_terminal; now rewrite C | reflexivity]. }
  destruct (Py.eq_str status "failed" || Py.eq_str status "canceled") eqn:F.
  2:{ left. eapply One. exact P. }
  assert (K : is_terminal status = true)
    by (unfold is_terminal; rewrite C; exact F).
  destruct (Py.encodable
              match Py.lookup "error" items with
              | Some s => s | None => VStr "Unknown error" end).
  - right. do 3 eexists. split; [exact P|].
    split; [exact T|]. split; [exact S|]. split; [exact K | reflexivity].
  - left.
    exists [LPollStatus attempt max_attempts status message;
            LPollError attempt max_attempts UnicodeEncodeError].
    split; [exact P|]. right. exists status. now split.
Qed.

(** Attempts that see no terminal status all wait. *)
Lemma poll_loop_waits (attempts : list Z) (w : world) :
  (forall i s, (i < List.length attempts)%nat ->
     seen_status (net w (sent w + i) (poll_request request_id)) = Some s ->
     is_terminal s = false) ->
  exists ls,
    List.length ls = List.length attempts
    /\ poll_loop request_id max_attempts attempts w =
         (Ok None,
          advance w (List.length attempts)
            (flat_map (waiting_round request_id) ls)).
Proof.
  revert w. induction attempts as [|a rest IH]; intros w H.
  - exists []. split; [reflexivity|]. simpl. unfold ret. now rewrite advance_zero.
  - assert (H0 : forall s,
               seen_status (net w (sent w) (poll_request request_id)) = Some s ->
               is_terminal s = false).
    { intros s S. apply (H 0%nat s); [simpl; lia|]. now rewrite Nat.add_0_r. }
    destruct (poll_attempt_cases a w)
      as [(ls0 & P & [(l & ->) | (s & S & T)]) | (v & s & evs & P & _ & S & T & _)];
      try (rewrite (H0 s S) in T; discriminate).
    change (waiting_events request_id [l]) with (waiting_round request_id l) in P.
    destruct (IH (advance w 1 (waiting_round request_id l))) as (ls & L & Q).
    { intros i s Hi. cbn [advance net sent].
      replace (1 + sent w + i)%nat with (sent w + Datatypes.S i)%nat by lia.
      apply H. simpl. lia. }
    exists (l :: ls). split; [simpl; now rewrite L|].
    cbn [poll_loop]. unfold bind at 1. rewrite P, Q.
    rewrite advance_advance. f_equal. f_equal. simpl. lia.
Qed.

End PollLoop.

Lemma actions_app (xs ys : list event) :
  actions (xs ++ ys) = actions xs ++ actions ys.
Proof. apply filter_app. Qed.

Lemma actions_waiting_rounds (request_id : value) (ls : list line) :
  actions (flat_map (waiting_round request_id) ls) =
    flat_map (fun _ => [EGet (UrlRetrieveStatus request_id); ESleep 2]) ls.
Proof.
  induction ls as [|l ls IH]; [reflexivity|].
  simpl. now f_equal; f_equal.
Qed.

Lemma sleeps_of_waiting_rounds (request_id : value) (ls : list line) :
  filter is_sleep (flat_map (waiting_round request_id) ls) =
    repeat (ESleep 2) (List.length ls).
Proof.
  induction ls as [|l ls IH]; [reflexivity|].
  simpl. now rewrite IH.
Qed.

Lemma waiting_rounds_end (request_id : value) (ls : list line) :
  ls <> [] ->
  exists evs, flat_map (waiting_round request_id) ls = evs ++ [ESleep 2].
Proof.
  induction ls as [|l ls IH]; [congruence|]. intros _.
  destruct ls as [|l' ls'].
  - exists [EGet (UrlRetrieveStatus request_id); EPrint l]. reflexivity.
  - destruct IH as (evs & E); [congruence|].
    exists ([EGet (UrlRetrieveStatus request_id); EPrint l; ESleep 2] ++ evs).
    cbn [flat_map] in *. rewrite E. unfold waiting_round. simpl. reflexivity.
Qed.

(** A run in which no attempt sees a terminal status is a sequence of
    waiting rounds, one per attempt, and then the timeout. *)
Lemma poll_timeout_sleeps_waits (request_id : value) (max_attempts : Z) (w : world) :
  (forall i s, (i < Z.to_nat max_attempts)%nat ->
     seen_status (net w (sent w + i) (poll_request request_id)) = Some s ->
     is_terminal s = false) ->
  exists ls,
    List.length ls = Z.to_nat max_attempts
    /\ poll_for_results request_id max_attempts w =
         (Ok VNone,
          advance w (Z.to_nat max_attempts)
            (flat_map (waiting_round request_id) ls ++ [EPrint LTimeout])).
Proof.
  intros H.
  pose proof (range_length 1 (max_attempts + 1)) as RL.
  replace (max_attempts + 1 - 1) with max_attempts in RL by lia.
  destruct (poll_loop_waits request_id max_attempts
              (Py.range 1 (max_attempts + 1)) w) as (ls & L & Q).
  { intros i s Hi. apply H. lia. }
  rewrite RL in *. exists ls. split; [exact L|].
  unfold poll_for_results, bind. rewrite Q. simpl.
  unfold print, bind, ret. settle_world. reflexivity.
Qed.

(** ** Properties of [poll_for_results] *)

(** C1, as amended: when an iteration of [poll_for_results] receives a
    response that passes the HTTP status check (its code is not in
    400..599) and parses to a payload whose status field is "complete" and
    whose message can be printed on the console, the function returns that
    very payload, and the run ends with that request and the line printed
    for it: no further request, no sleep. *)
Theorem poll_complete_returns_payload
  (request_id : value) (max_attempts : Z) (pre post : list Z) (attempt : Z)
  (w w1 : world) (r : response) (result : value) :
  Py.range 1 (max_attempts + 1) = pre ++ attempt :: post ->
  poll_loop request_id max_attempts pre w = (Ok None, w1) ->
  net w1 (sent w1) (poll_request request_id) = Response r ->
  response_ok r = true ->
  json_body r = Some result ->
  has_status result "complete" ->
  message_printable result ->
  exists message,
    poll_for_results request_id max_attempts w =
      (Ok result,
       advance w1 1
         [EGet (UrlRetrieveStatus request_id);
          EPrint (LPollStatus attempt max_attempts (VStr "complete") message)]).
Proof.
  intros R P N K J (items & -> & L) M.
  apply negb_true_iff in K.
  assert (NE : items <> []) by (destruct items; [discriminate | congruence]).
  pose proof (poll_attempt_object request_id attempt max_attempts w1 r items N K J NE) as A.
  cbv zeta in A. rewrite L in A. cbn [Py.eq_str String.eqb Ascii.eqb Bool.eqb] in A.
  specialize (A M).
  eexists. rewrite (poll_for_results_reaches _ _ pre post attempt w w1 R P).
  cbn [poll_loop]. unfold bind. rewrite A. reflexivity.
Qed.

(** C4, as amended: when an iteration receives a response that passes the
    HTTP status check and parses to a payload whose status field is
    "failed" or "canceled" and whose message and error can be printed on the
    console, the function returns that payload at once: the run ends with
    that request, its status line and its error line, without a sleep, a
    retry or another request. *)
Theorem poll_failed_returns_payload
  (request_id : value) (max_attempts : Z) (pre post : list Z) (attempt : Z)
  (w w1 : world) (r : response) (result : value) (status : string) :
  Py.range 1 (max_attempts + 1) = pre ++ attempt :: post ->
  poll_loop request_id max_attempts pre w = (Ok None, w1) ->
  net w1 (sent w1) (poll_request request_id) = Response r ->
  response_ok r = true ->
  json_body r = Some result ->
  status = "failed" \/ status = "canceled" ->
  has_status result status ->
  message_printable result ->
  error_printable result ->
  exists message error,
    poll_for_results request_id max_attempts w =
      (Ok result,
       advance w1 1
         [EGet (UrlRetrieveStatus request_id);
          EPrint (LPollStatus attempt max_attempts (VStr status) message);
          EPrint (LPollErrorField error)]).
Proof.
  intros R P N K J S (items & -> & L) M E.
  apply negb_true_iff in K.
  assert (NE : items <> []) by (destruct items; [discriminate | congruence]).
  pose proof (poll_attempt_object request_id attempt max_attempts w1 r items N K J NE) as A.
  cbv zeta in A. rewrite L in A.
  unfold message_printable, error_printable, field_or, Py.get in M, E.
  specialize (A M). rewrite E in A.
  do 2 eexists. rewrite (poll_for_results_reaches _ _ pre post attempt w w1 R P).
  cbn [poll_loop]. unfold bind.
  destruct S as [-> | ->];
    cbn [Py.eq_str String.eqb Ascii.eqb Bool.eqb orb] in A; rewrite A; reflexivity.
Qed.


(** C9: an iteration whose 2xx response parses to a falsy value prints the
    deserialization failure, waits 2 seconds and hands over to the next
    attempt, having used up its own; and no falsy payload is ever what
    the loop returns. *)
Theorem poll_falsy_payload_is_skipped
  (request_id : value) (max_attempts : Z) (pre post : list Z) (attempt : Z)
  (w w1 : world) (r : response) (result : value) :
  Py.range 1 (max_attempts + 1) = pre ++ attempt :: post ->
  poll_loop request_id max_attempts pre w = (Ok None, w1) ->
  net w1 (sent w1) (poll_request request_id) = Response r ->
  200 <= status_code r < 300 ->
  json_body r = Some result ->
  Py.truthy result = false ->
  poll_for_results request_id max_attempts w =
    bind (poll_loop request_id max_attempts post) after_poll_loop
      (advance w1 1
         [EGet (UrlRetrieveStatus request_id);
          EPrint (LDeserializeFailed attempt max_attempts);
          ESleep 2])
  /\ Z.of_nat (List.length post) = max_attempts - attempt
  /\ (forall attempts w0 v w',
        poll_loop request_id max_attempts attempts w0 = (Ok (Some v), w') ->
        Py.truthy v = true).
Proof.
  intros R P N C J T.
  assert (E : is_error_status (status_code r) = false).
  { unfold is_error_status. apply andb_false_iff. left. lia. }
  split; [|split].
  - rewrite (poll_for_results_reaches _ _ pre post attempt w w1 R P).
    unfold bind at 1. cbn [poll_loop]. unfold bind at 1.
    rewrite (poll_attempt_falsy _ attempt max_attempts w1 r result N E J T).
    reflexivity.
  - destruct (range_split _ _ _ _ _ R) as [_ L]. lia.
  - clear. induction attempts as [|a rest IH]; intros w0 v w' H.
    + discriminate.
    + cbn [poll_loop] in H. unfold bind in H.
      destruct (poll_attempt_cases request_id max_attempts a w0)
        as [(l & A & _) | (v' & s & evs & A & Tv & _)]; rewrite A in H.
      * eapply IH. exact H.
      * inversion H. subst. exact Tv.
Qed.

(** C10: when no iteration sees a terminal status, the run waits 2 seconds
    once per attempt, [max_attempts] times in all, the last wait coming
    after the final attempt and right before the timeout line and the
    [None] result. *)
Theorem poll_timeout_sleeps_every_attempt
  (request_id : value) (max_attempts : Z) (w : world) :
  (forall i s, (i < Z.to_nat max_attempts)%nat ->
     seen_status (net w (sent w + i) (poll_request request_id)) = Some s ->
     is_terminal s = false) ->
  exists evs,
    poll_for_results request_id max_attempts w =
      (Ok VNone, advance w (Z.to_nat max_attempts) (evs ++ [EPrint LTimeout]))
    /\ filter is_sleep evs = repeat (ESleep 2) (Z.to_nat max_attempts)
    /\ Z.of_nat (List.length (filter is_sleep evs)) = Z.max 0 max_attempts
    /\ (0 < max_attempts -> exists evs', evs = evs' ++ [ESleep 2]).
Proof.
  intros H.
  pose proof (range_length 1 (max_attempts + 1)) as RL.
  replace (max_attempts + 1 - 1) with max_attempts in RL by lia.
  destruct (poll_loop_waits request_id max_attempts
              (Py.range 1 (max_attempts + 1)) w) as (ls & L & Q).
  { intros i s Hi. apply H. lia. }
  rewrite RL in *.
  exists (flat_map (waiting_round request_id) ls).
  pose proof (sleeps_of_waiting_rounds request_id ls) as S1.
  split; [|split; [|split]].
  - unfold poll_for_results, bind. rewrite Q. simpl.
    unfold print, bind, ret. settle_world. reflexivity.
  - now rewrite S1, L.
  - rewrite S1, repeat_length, L. lia.
  - intros Pos. apply waiting_rounds_end.
    destruct ls; [simpl in L; lia | congruence].
Qed.

(** C3: with [max_attempts = 3] and a server that answers every poll with
    a parseable response whose status is "running", the run is three GET
    requests, each followed by a 2-second wait, and then the timeout
    result [None]. *)
Theorem poll_three_running_attempts (request_id : value) (w : world) :
  (forall k, exists r result,
      net w k (poll_request request_id) = Response r
      /\ json_body r = Some result
      /\ has_status result "running") ->
  exists w',
    poll_for_results request_id 3 w = (Ok VNone, w')
    /\ sent w' = (3 + sent w)%nat
    /\ actions (events_since w w') =
         [EGet (UrlRetrieveStatus request_id); ESleep 2;
          EGet (UrlRetrieveStatus request_id); ESleep 2;
          EGet (UrlRetrieveStatus request_id); ESleep 2].
Proof.
  intros H.
  destruct (poll_timeout_sleeps_waits request_id 3 w) as (ls & L & Q).
  { intros i s _ S. destruct (H (sent w + i)%nat) as (r & result & N & J & (items & -> & K)).
    rewrite N in S. unfold seen_status in S.
    destruct (is_error_status (status_code r)); [discriminate|].
    rewrite J in S. destruct items; [discriminate|].
    cbn [Py.truthy Py.get] in S. rewrite K in S. inversion S. reflexivity. }
  eexists. split; [exact Q|]. split; [reflexivity|].
  rewrite events_since_advance, actions_app, actions_waiting_rounds.
  destruct ls as [|l1 [|l2 [|l3 [|l4 ls]]]]; try discriminate. reflexivity.
Qed.

(** *** Sample runs of the poll *)

Lemma poll_complete_returns_payload_witness :
  fst (poll_for_results Sample.request_id 2 (Sample.running_then "complete")) =
    Ok (Sample.status_payload "complete").
Proof.
  destruct (poll_complete_returns_payload Sample.request_id 2 [1] [] 2
              (Sample.running_then "complete")
              (advance (Sample.running_then "complete") 1
                 (waiting_round Sample.request_id
                    (LPollStatus 1 2 (VStr "running") (VStr ""))))
              (mkResponse 200 "<json>" (Some (Sample.status_payload "complete")))
              (Sample.status_payload "complete"))
    as [message E].
  - reflexivity.
  - reflexivity.
  - reflexivity.
  - reflexivity.
  - reflexivity.
  - eexists. split; reflexivity.
  - reflexivity.
  - rewrite E. reflexivity.
Defined.

(** C1, as stated, fails, in two ways.  Every answer of the first server is
    a parseable response whose status field is "complete", but its HTTP
    status is 500; every answer of the second is a 200 whose status field is
    "complete", but whose message is a lone surrogate, which the console
    cannot encode.  In both runs the first iteration does not return the
    payload: the run waits, polls again, and ends with the timeout
    result. *)
Lemma poll_complete_is_not_always_returned :
  let u := UrlRetrieveStatus Sample.request_id in
  let w := Sample.error_with_status 500 "complete" in
  let w' := Sample.always_unprintable "complete" "message" in
  (exists r,
      net w (sent w) (poll_request Sample.request_id) = Response r
      /\ json_body r = Some (Sample.status_payload "complete")
      /\ has_status (Sample.status_payload "complete") "complete")
  /\ poll_for_results Sample.request_id 2 w =
       (Ok VNone,
        advance w 2
          [EGet u; EPrint (LPollError 1 2 (HTTPError 500)); ESleep 2;
           EGet u; EPrint (LPollError 2 2 (HTTPError 500)); ESleep 2;
           EPrint LTimeout])
  /\ (exists r payload,
        net w' (sent w') (poll_request Sample.request_id) = Response r
        /\ response_ok r = true
        /\ json_body r = Some payload
        /\ has_status payload "complete")
  /\ poll_for_results Sample.request_id 2 w' =
       (Ok VNone,
        advance w' 2
          [EGet u; EPrint (LPollError 1 2 UnicodeEncodeError); ESleep 2;
           EGet u; EPrint (LPollError 2 2 UnicodeEncodeError); ESleep 2;
           EPrint LTimeout]).
Proof.
  cbv zeta. split; [|split; [|split]].
  - eexists. split; [reflexivity|]. split; [reflexivity|].
    eexists. split; reflexivity.
  - reflexivity.
  - do 2 eexists. split; [reflexivity|]. split; [reflexivity|].
    split; [reflexivity|]. eexists. split; reflexivity.
  - reflexivity.
Qed.

Lemma poll_failed_returns_payload_witness :
  fst (poll_for_results Sample.request_id 2 (Sample.running_then "canceled")) =
    Ok (Sample.status_payload "canceled").
Proof.
  destruct (poll_failed_returns_payload Sample.request_id 2 [1] [] 2
              (Sample.running_then "canceled")
              (advance (Sample.running_then "canceled") 1
                 (waiting_round Sample.request_id
                    (LPollStatus 1 2 (VStr "running") (VStr ""))))
              (mkResponse 200 "<json>" (Some (Sample.status_payload "canceled")))
              (Sample.status_payload "canceled") "canceled")
    as (message & error & E).
  - reflexivity.
  - reflexivity.
  - reflexivity.
  - reflexivity.
  - reflexivity.
  - right. reflexivity.
  - eexists. split; reflexivity.
  - reflexivity.
  - reflexivity.
  - rewrite E. reflexivity.
Defined.

(** C4, as stated, fails, in two ways.  Every answer of the first server is
    a parseable response whose status field is "failed", under the HTTP
    status 503; every answer of the second is a 200 whose status field is
    "failed", but whose error is a lone surrogate, which the console cannot
    encode.  In both runs the first iteration does not return the payload:
    the run waits and polls again. *)
Lemma poll_failed_is_not_always_returned :
  let u := UrlRetrieveStatus Sample.request_id in
  let w := Sample.error_with_status 503 "failed" in
  let w' := Sample.always_unprintable "failed" "error" in
  (exists r,
      net w (sent w) (poll_request Sample.request_id) = Response r
      /\ json_body r = Some (Sample.status_payload "failed")
      /\ has_status (Sample.status_payload "failed") "failed")
  /\ poll_for_results Sample.request_id 2 w =
       (Ok VNone,
        advance w 2
          [EGet u; EPrint (LPollError 1 2 (HTTPError 503)); ESleep 2;
           EGet u; EPrint (LPollError 2 2 (HTTPError 503)); ESleep 2;
           EPrint LTimeout])
  /\ (exists r payload,
        net w' (sent w') (poll_request Sample.request_id) = Response r
        /\ response_ok r = true
        /\ json_body r = Some payload
        /\ has_status payload "failed")
  /\ poll_for_results Sample.request_id 2 w' =
       (Ok VNone,
        advance w' 2
          [EGet u; EPrint (LPollStatus 1 2 (VStr "failed") (VStr ""));
           EPrint (LPollError 1 2 UnicodeEncodeError); ESleep 2;
           EGet u; EPrint (LPollStatus 2 2 (VStr "failed") (VStr ""));
           EPrint (LPollError 2 2 UnicodeEncodeError); ESleep 2;
           EPrint LTimeout]).
Proof.
  cbv zeta. split; [|split; [|split]].
  - eexists. split; [reflexivity|]. split; [reflexivity|].
    eexists. split; reflexivity.
  - reflexivity.
  - do 2 eexists. split; [reflexivity|]. split; [reflexivity|].
    split; [reflexivity|]. eexists. split; reflexivity.
  - reflexivity.
Qed.


Lemma poll_falsy_payload_is_skipped_witness :
  poll_for_results Sample.request_id 1 Sample.always_empty_object =
    (Ok VNone,
     advance Sample.always_empty_object 1
       [EGet (UrlRetrieveStatus Sample.request_id);
        EPrint (LDeserializeFailed 1 1);
        ESleep 2;
        EPrint LTimeout]).
Proof.
  destruct (poll_falsy_payload_is_skipped Sample.request_id 1 [] [] 1
              Sample.always_empty_object Sample.always_empty_object
              (mkResponse 200 "<json>" (Some (VDict []))) (VDict []))
    as (E & _ & _).
  - reflexivity.
  - reflexivity.
  - reflexivity.
  - simpl. lia.
  - reflexivity.
  - reflexivity.
  - rewrite E. reflexivity.
Defined.

Lemma poll_timeout_sleeps_every_attempt_witness :
  exists evs,
    poll_for_results Sample.request_id 2 (Sample.always_status "running") =
      (Ok VNone,
       advance (Sample.always_status "running") 2 (evs ++ [EPrint LTimeout]))
    /\ filter is_sleep evs = [ESleep 2; ESleep 2]
    /\ Z.of_nat (List.length (filter is_sleep evs)) = 2
    /\ (0 < 2 -> exists evs', evs = evs' ++ [ESleep 2]).
Proof.
  apply (poll_timeout_sleeps_every_attempt Sample.request_id 2
           (Sample.always_status "running")).
  intros i s _ H. simpl in H. inversion H. reflexivity.
Defined.

Lemma poll_three_running_attempts_witness :
  exists w',
    poll_for_results Sample.request_id 3 (Sample.always_status "running") =
      (Ok VNone, w')
    /\ sent w' = 3%nat
    /\ actions (events_since (Sample.always_status "running") w') =
         [EGet (UrlRetrieveStatus Sample.request_id); ESleep 2;
          EGet (UrlRetrieveStatus Sample.request_id); ESleep 2;
          EGet (UrlRetrieveStatus Sample.request_id); ESleep 2].
Proof.
  apply (poll_three_running_attempts Sample.request_id
           (Sample.always_status "running")).
  intros k. do 2 eexists. split; [reflexivity|]. split; [reflexivity|].
  eexists. split; reflexivity.
Defined.

(** ** [submit_retrieve_request] *)




(** ** [download_page_data] *)

Lemma substring_prefix_length (n : nat) (s : string) :
  (n <= String.length s)%nat -> String.length (substring 0 n s) = n.
Proof.
  revert s. induction n as [|n IH]; intros s H.
  - destruct s; reflexivity.
  - destruct s as [|c s]; simpl in *; [lia|]. rewrite IH; [reflexivity | lia].
Qed.

(** C6: once the payload is fetched and parsed, [download_page_data]
    prints, between its two rules, the first 500 characters of the
    pretty-printed payload followed by "..." when that text is longer than
    500 characters, and the text itself, unchanged, when it is not. *)
Theorem download_prints_first_500
  (json_dumps : value -> string) (page_data_url : value) (w : world)
  (r : response) (page_data : value) :
  net w (sent w) (ReqGet (UrlGiven page_data_url)) = Response r ->
  response_ok r = true ->
  json_body r = Some page_data ->
  exists shown,
    download_page_data json_dumps page_data_url w =
      (Ok tt,
       advance w 1
         [EPrint LDownloading; EGet (UrlGiven page_data_url);
          EPrint LPageContentHeader; EPrint LRule;
          EPrint (LText shown); EPrint LRule])
    /\ ((500 < String.length (json_dumps page_data))%nat ->
        shown = (substring 0 500 (json_dumps page_data) ++ "...")%string
        /\ String.length (substring 0 500 (json_dumps page_data)) = 500%nat)
    /\ ((String.length (json_dumps page_data) <= 500)%nat ->
        shown = json_dumps page_data).
Proof.
  intros N K J. apply negb_true_iff in K.
  exists (if 500 <? Z.of_nat (String.length (json_dumps page_data))
          then (PyStr.prefix_slice 500 (json_dumps page_data) ++ "...")%string
          else json_dumps page_data).
  split; [|split].
  - unfold download_page_data, try_except, bind, print at 1, session_get, send.
    cbn [line_encodable emit_event net sent]. rewrite N.
    unfold raise_for_status, response_json. rewrite K, J.
    unfold ret, print. cbn [line_encodable]. cbv beta iota zeta.
    destruct (500 <? Z.of_nat (String.length (json_dumps page_data)));
      cbn [line_encodable]; settle_world; reflexivity.
  - intros L.
    replace (500 <? Z.of_nat (String.length (json_dumps page_data))) with true
      by (symmetry; apply Z.ltb_lt; lia).
    split; [reflexivity|]. apply substring_prefix_length. lia.
  - intros L.
    replace (500 <? Z.of_nat (String.length (json_dumps page_data))) with false
      by (symmetry; apply Z.ltb_ge; lia).
    reflexivity.
Qed.

Lemma download_prints_first_500_witness :
  exists shown,
    download_page_data Sample.long_dumps (VStr "https://cdn.example/p1")
      (Sample.scripted (fun _ => Sample.json_response 200 (VDict [])) []) =
      (Ok tt,
       advance (Sample.scripted (fun _ => Sample.json_response 200 (VDict [])) []) 1
         [EPrint LDownloading; EGet (UrlGiven (VStr "https://cdn.example/p1"));
          EPrint LPageContentHeader; EPrint LRule;
          EPrint (LText shown); EPrint LRule])
    /\ String.length shown = 503%nat.
Proof.
  destruct (download_prints_first_500 Sample.long_dumps
              (VStr "https://cdn.example/p1")
              (Sample.scripted (fun _ => Sample.json_response 200 (VDict [])) [])
              (mkResponse 200 "<json>" (Some (VDict []))) (VDict []))
    as (shown & E & Long & _).
  - reflexivity.
  - reflexivity.
  - reflexivity.
  - exists shown. split; [exact E|].
    destruct Long as [-> _]; [vm_compute; lia | reflexivity].
Defined.

(** ** [main] *)

(** C8: when the API key is empty, whether it is the first command-line
    argument or the line typed at the prompt (stripped), [main] prints the
    usage message and exits with status 1; no client is built and no request
    is sent. *)
Theorem main_empty_key_exits
  (json_dumps : value -> string) (argv : list string) (w : world) :
  let usage :=
    [EPrint LKeyRequired; EPrint LUsage; EPrint LUsageArg; EPrint LUsageOr;
     EPrint LUsagePrompt] in
  (forall prog rest,
      argv = prog :: ""%string :: rest ->
      main json_dumps argv w = (Raise (SystemExit 1), advance w 0 usage))
  /\ (forall key_line rest,
        (List.length argv <= 1)%nat ->
        stdin w = key_line :: rest ->
        PyStr.strip key_line = ""%string ->
        main json_dumps argv w =
          (Raise (SystemExit 1),
           mkWorld (net w) rest (sent w)
             (trace w ++ EInput PromptApiKey :: usage))).
Proof.
  cbv zeta. split.
  - intros prog rest ->. unfold main, bind. cbn [List.length nth].
    replace (1 <? Z.of_nat (S (S (List.length rest)))) with true
      by (symmetry; apply Z.ltb_lt; lia).
    unfold ret at 1. cbn [PyStr.is_empty].
    unfold print, raise. cbn [line_encodable]. settle_world. reflexivity.
  - intros key_line rest L I S. unfold main, bind.
    replace (1 <? Z.of_nat (List.length argv)) with false
      by (symmetry; apply Z.ltb_ge; lia).
    unfold input at 1. rewrite I. unfold ret at 1. rewrite S.
    cbn [PyStr.is_empty]. unfold print, raise, emit_event. cbn [line_encodable]. simpl.
    repeat rewrite <- app_assoc. reflexivity.
Qed.

Lemma main_empty_key_exits_witness :
  main Sample.short_dumps ["viewengine_demo.py"; ""]%string Sample.unreachable =
    (Raise (SystemExit 1),
     advance Sample.unreachable 0
       [EPrint LKeyRequired; EPrint LUsage; EPrint LUsageArg; EPrint LUsageOr;
        EPrint LUsagePrompt])
  /\ main Sample.short_dumps ["viewengine_demo.py"]%string
       (Sample.scripted (fun _ => NetError "connection refused") ["   "]%string) =
       (Raise (SystemExit 1),
        mkWorld (fun _ _ => NetError "connection refused") [] 0
          [EInput PromptApiKey; EPrint LKeyRequired; EPrint LUsage;
           EPrint LUsageArg; EPrint LUsageOr; EPrint LUsagePrompt]).
Proof.
  split.
  - apply (proj1 (main_empty_key_exits Sample.short_dumps
                    ["viewengine_demo.py"; ""]%string Sample.unreachable)
             "viewengine_demo.py"%string []).
    reflexivity.
  - apply (proj2 (main_empty_key_exits Sample.short_dumps
                    ["viewengine_demo.py"]%string
                    (Sample.scripted (fun _ => NetError "connection refused")
                       ["   "]%string))
             "   "%string []).
    + simpl. lia.
    + reflexivity.
    + reflexivity.
Defined.

(** With a key, [main] does build the client and [run] does talk to the
    server: the early exit above is what keeps both from happening. *)
Lemma main_with_key_builds_client_and_sends :
  let w' := snd (main Sample.short_dumps ["viewengine_demo.py"; "k"]%string
                   Sample.unreachable) in
  In (ENewSession "k") (trace w') /\ In (EGet UrlTools) (trace w').
Proof.
  vm_compute. split; tauto.
Qed.

(** ** What a run sends: the events computations add to the trace *)

Lemma extends_refl (P : event -> Prop) (w : world) : extends P w w.
Proof. exists []. split; [now rewrite app_nil_r | constructor]. Qed.

Lemma extends_trans (P : event -> Prop) (w1 w2 w3 : world) :
  extends P w1 w2 -> extends P w2 w3 -> extends P w1 w3.
Proof.
  intros (e1 & T1 & F1) (e2 & T2 & F2). exists (e1 ++ e2). split.
  - now rewrite T2, T1, app_assoc.
  - apply Forall_app. now split.
Qed.

Lemma extends_weaken (P Q : event -> Prop) (w w' : world) :
  (forall e, P e -> Q e) -> extends P w w' -> extends Q w w'.
Proof.
  intros I (evs & T & F). exists evs. split; [exact T|].
  eapply Forall_impl; [exact I | exact F].
Qed.

Lemma extends_emit (P : event -> Prop) (e : event) (w : world) :
  P e -> extends P w (emit_event e w).
Proof. intros H. exists [e]. split; [reflexivity | now constructor]. Qed.

Lemma extends_since (P : event -> Prop) (w w' : world) (e : event) :
  extends P w w' -> In e (events_since w w') -> P e.
Proof.
  intros (evs & T & F) I. unfold events_since in I.
  rewrite T, skipn_app, skipn_all, Nat.sub_diag in I. simpl in I.
  rewrite Forall_forall in F. now apply F.
Qed.

Section Emitting.

Variable P : event -> Prop.
Hypothesis P_no_post : forall e, no_post e -> P e.

Lemma emitting_ret {A} (a : A) : emitting P (ret a).
Proof. intros w. apply extends_refl. Qed.

Lemma emitting_raise {A} (e : exn) : emitting P (@raise A e).
Proof. intros w. apply extends_refl. Qed.

Lemma emitting_lift {A} (r : result A) : emitting P (lift r).
Proof. intros w. apply extends_refl. Qed.

Lemma emitting_print (l : line) : emitting P (print l).
Proof.
  intros w. unfold print. destruct (line_encodable l).
  - apply extends_emit, P_no_post. exact I.
  - apply extends_refl.
Qed.

Lemma emitting_sleep (n : Z) : emitting P (sleep n).
Proof. intros w. apply extends_emit, P_no_post. exact I. Qed.

Lemma emitting_traceback : emitting P traceback_print_exc.
Proof. intros w. apply extends_emit, P_no_post. exact I. Qed.

Lemma emitting_input (p : prompt) : emitting P (input p).
Proof.
  intros w. unfold input.
  destruct (stdin w); simpl; exists [EInput p]; (split; [reflexivity|]);
    constructor; auto; apply P_no_post; exact I.
Qed.

Lemma emitting_send (req : request) (ev : event) :
  P ev -> emitting P (send req ev).
Proof.
  intros H w. unfold send.
  destruct (net w (sent w) req); simpl; exists [ev]; (split; [reflexivity|]);
    constructor; auto.
Qed.

Lemma emitting_get (u : url) : emitting P (session_get u).
Proof. apply emitting_send, P_no_post. exact I. Qed.

Lemma emitting_raise_for_status (r : response) : emitting P (raise_for_status r).
Proof.
  unfold raise_for_status. destruct (is_error_status (status_code r));
    [apply emitting_raise | apply emitting_ret].
Qed.

Lemma emitting_response_json (r : response) : emitting P (response_json r).
Proof.
  unfold response_json. destruct (json_body r);
    [apply emitting_ret | apply emitting_raise].
Qed.

Lemma emitting_bind {A B} (m : M A) (f : A -> M B) :
  emitting P m -> (forall a, emitting P (f a)) -> emitting P (bind m f).
Proof.
  intros Hm Hf w. unfold bind. specialize (Hm w).
  destruct (m w) as [[a|e] w1]; simpl in *.
  - eapply extends_trans; [exact Hm | apply Hf].
  - exact Hm.
Qed.

Lemma emitting_try {A} (m : M A) (h : exn -> M A) :
  emitting P m -> (forall e, emitting P (h e)) -> emitting P (try_except m h).
Proof.
  intros Hm Hh w. unfold try_except. specialize (Hm w).
  destruct (m w) as [[a|e] w1]; simpl in *; [exact Hm|].
  destruct (is_Exception e); simpl; [|exact Hm].
  eapply extends_trans; [exact Hm | apply Hh].
Qed.

End Emitting.

Create HintDb emitting.

(** Decomposes a computation built from the primitives that send no POST;
    the hints of [emitting] settle the functions already dealt with. *)
Ltac emitting_steps :=
  repeat first
    [ solve [auto 2 with emitting nocore]
    | apply emitting_ret
    | apply emitting_raise
    | apply emitting_lift
    | apply emitting_print; assumption
    | apply emitting_sleep; assumption
    | apply emitting_traceback; assumption
    | apply emitting_input; assumption
    | apply emitting_get; assumption
    | apply emitting_raise_for_status
    | apply emitting_response_json
    | apply emitting_try; [| intros ?]
    | apply emitting_bind; [| intros ?]
    | match goal with
      | |- emitting _ (if ?b then _ else _) => destruct b
      | |- emitting _ (match ?r with Some _ => _ | None => _ end) => destruct r
      end ].

Lemma emitting_poll_attempt (P : event -> Prop) (request_id : value)
  (attempt max_attempts : Z) :
  (forall e, no_post e -> P e) ->
  emitting P (poll_attempt request_id attempt max_attempts).
Proof. intros H. unfold poll_attempt, poll_iteration. emitting_steps. Qed.

Lemma emitting_poll_loop (P : event -> Prop) (request_id : value)
  (max_attempts : Z) (attempts : list Z) :
  (forall e, no_post e -> P e) ->
  emitting P (poll_loop request_id max_attempts attempts).
Proof.
  intros H. induction attempts as [|a rest IH]; cbn [poll_loop].
  - apply emitting_ret.
  - apply emitting_bind; [now apply emitting_poll_attempt|].
    intros [v|]; [apply emitting_ret | exact IH].
Qed.

Lemma emitting_poll_for_results (P : event -> Prop) (request_id : value)
  (max_attempts : Z) :
  (forall e, no_post e -> P e) ->
  emitting P (poll_for_results request_id max_attempts).
Proof.
  intros H. unfold poll_for_results.
  apply emitting_bind; [now apply emitting_poll_loop|].
  intros r. unfold after_poll_loop. emitting_steps.
Qed.

Lemma emitting_get_mcp_tools (P : event -> Prop) :
  (forall e, no_post e -> P e) -> emitting P get_mcp_tools.
Proof. intros H. unfold get_mcp_tools. emitting_steps. Qed.

Lemma emitting_print_tools (P : event -> Prop) (tools : list value) :
  (forall e, no_post e -> P e) -> emitting P (print_tools tools).
Proof.
  intros H. induction tools as [|t rest IH]; cbn [print_tools]; emitting_steps.
Qed.

Lemma emitting_download_page_data (P : event -> Prop)
  (json_dumps : value -> string) (u : value) :
  (forall e, no_post e -> P e) ->
  emitting P (download_page_data json_dumps u).
Proof. intros H. unfold download_page_data. emitting_steps. Qed.

#[local] Hint Resolve emitting_poll_for_results emitting_get_mcp_tools
  emitting_print_tools emitting_download_page_data : emitting.

Lemma emitting_show_content (P : event -> Prop)
  (json_dumps : value -> string) (result : value) :
  (forall e, no_post e -> P e) ->
  emitting P (show_content json_dumps result).
Proof. intros H. unfold show_content. emitting_steps. Qed.

#[local] Hint Resolve emitting_show_content : emitting.

Lemma emitting_poll_and_report (P : event -> Prop)
  (json_dumps : value -> string) (v : value) :
  (forall e, no_post e -> P e) ->
  emitting P (poll_and_report json_dumps v).
Proof. intros H. unfold poll_and_report. emitting_steps. Qed.

#[local] Hint Resolve emitting_poll_and_report : emitting.

Lemma posts_only_no_post (body : value) (e : event) :
  no_post e -> posts_only body e.
Proof. destruct e; simpl; tauto. Qed.

(** The one POST of the program carries the request body built from the
    arguments of [submit_retrieve_request]. *)
Lemma emitting_submit (url : string) (force_refresh : bool) (mode : string) :
  emitting (posts_only (request_body url force_refresh mode))
    (submit_retrieve_request url force_refresh mode).
Proof.
  pose proof (posts_only_no_post (request_body url force_refresh mode)) as Q.
  unfold submit_retrieve_request. cbv zeta.
  apply emitting_try; [| intros ?; emitting_steps].
  apply emitting_bind; [apply emitting_send; reflexivity|].
  intros r. emitting_steps.
Qed.

#[local] Hint Resolve emitting_submit posts_only_no_post : emitting.


(** ** What [run_demo] posts *)

Lemma quiet_ret {A} (a : A) : quiet (ret a).
Proof. intros w. split; [reflexivity | apply extends_refl]. Qed.

Lemma quiet_lift {A} (r : result A) : quiet (lift r).
Proof. intros w. split; [reflexivity | apply extends_refl]. Qed.

Lemma quiet_print (l : line) : quiet (print l).
Proof.
  intros w. unfold print. destruct (line_encodable l).
  - split; [reflexivity | now apply extends_emit].
  - split; [reflexivity | apply extends_refl].
Qed.

Lemma quiet_bind {A B} (m : M A) (f : A -> M B) :
  quiet m -> (forall a, quiet (f a)) -> quiet (bind m f).
Proof.
  intros Hm Hf w. unfold bind. destruct (Hm w) as [S E].
  destruct (m w) as [[a|e] w1]; simpl in *; [|now split].
  destruct (Hf a w1) as [S' E']. split; [congruence|].
  eapply extends_trans; eauto.
Qed.

Lemma quiet_get_mcp_tools : quiet get_mcp_tools.
Proof.
  intros w. split; [|now apply emitting_get_mcp_tools].
  unfold get_mcp_tools, try_except, bind, session_get, send.
  destruct (net w (sent w) (ReqGet UrlTools)) as [msg|r]; [reflexivity|].
  unfold raise_for_status.
  destruct (is_error_status (status_code r)); [reflexivity|].
  unfold response_json. destruct (json_body r) as [data|]; [|reflexivity].
  unfold ret, lift. destruct (Py.get data "tools" VNone) as [v|[]]; reflexivity.
Qed.

Lemma quiet_print_tools (tools : list value) : quiet (print_tools tools).
Proof.
  induction tools as [|t rest IH]; cbn [print_tools].
  - apply quiet_ret.
  - repeat (apply quiet_bind; [first [apply quiet_lift | apply quiet_print]|intros ?]).
    exact IH.
Qed.

(** A quiet step of a run keeps what holds of a run that has read nothing
    and posted nothing so far. *)
Lemma bind_quiet {A B} (m : M A) (f : A -> M B) (w0 w : world)
  (Post : world -> Prop) :
  quiet m ->
  stdin w = stdin w0 ->
  extends no_post w0 w ->
  (forall w', extends no_post w0 w' -> Post w') ->
  (forall a w', stdin w' = stdin w0 -> extends no_post w0 w' ->
                Post (snd (f a w'))) ->
  Post (snd (bind m f w)).
Proof.
  intros Q S E Stop Go. unfold bind. destruct (Q w) as [S1 E1].
  destruct (m w) as [[a|e] w1]; simpl in *.
  - apply Go; [congruence | eapply extends_trans; eauto].
  - apply Stop. eapply extends_trans; eauto.
Qed.

Lemma extends_more (P : event -> Prop) (w0 w w' : world) (evs : list event) :
  extends P w0 w -> trace w' = trace w ++ evs -> Forall P evs ->
  extends P w0 w'.
Proof.
  intros E T F. apply (extends_trans P w0 w w'); [exact E|].
  exists evs. now split.
Qed.

(** Closes [extends P w0 w'] when [w'] is [w], known to extend [w0], with a
    few more events written out. *)
Ltac extend_from E :=
  eapply extends_more;
  [ exact E
  | simpl; rewrite <- ?app_assoc; reflexivity
  | repeat constructor ].

(** [input] either meets the end of the input or hands over the next line. *)
Lemma bind_input {B} (p : prompt) (f : string -> M B) (w : world) :
  (stdin w = [] /\ snd (bind (input p) f w) = emit_event (EInput p) w)
  \/ (exists l rest,
        stdin w = l :: rest
        /\ bind (input p) f w =
             f l (mkWorld (net w) rest (sent w) (trace w ++ [EInput p]))).
Proof.
  unfold bind, input. destruct (stdin w) as [|l rest].
  - left. split; reflexivity.
  - right. exists l, rest. split; reflexivity.
Qed.

(** Splits the goal on the [input] at the head of the computation. *)
Ltac read_line p l rest I :=
  match goal with
  | |- context [bind (input p) ?f ?w] =>
      let X := fresh "X" in
      destruct (bind_input p f w) as [[_ X] | (l & rest & I & X)];
      rewrite X; clear X
  end.

(** Either [run_demo] posts nothing, or it has read the three answers and
    every POST carries the body built from them. *)
Lemma run_demo_posts (json_dumps : value -> string) (w : world) :
  extends no_post w (snd (run_demo json_dumps w))
  \/ exists url_line refresh_line mode_line rest url force_refresh,
       stdin w = url_line :: refresh_line :: mode_line :: rest
       /\ extends
            (posts_only
               (request_body url force_refresh (normalised_mode mode_line)))
            w (snd (run_demo json_dumps w)).
Proof.
  unfold run_demo.
  apply (bind_quiet _ _ w w); [apply quiet_print | reflexivity | apply extends_refl | now left |].
  intros _ w1 S1 E1.
  apply (bind_quiet _ _ w w1); [apply quiet_get_mcp_tools | exact S1 | exact E1 | now left |].
  intros tools w2 S2 E2.
  apply (bind_quiet _ _ w w2); [ | exact S2 | exact E2 | now left |].
  { destruct (Py.truthy tools); [|apply quiet_print].
    repeat (apply quiet_bind; [first [apply quiet_lift | apply quiet_print]|intros ?]).
    apply quiet_print_tools. }
  intros _ w3 S3 E3.
  apply (bind_quiet _ _ w w3); [apply quiet_print | exact S3 | exact E3 | now left |].
  intros _ w4 S4 E4.
  read_line PromptUrl url_line r1 I1.
  { left. extend_from E4. }
  cbv zeta.
  read_line PromptForceRefresh refresh_line r2 I2.
  { left. extend_from E4. }
  cbn [net stdin sent trace] in *. subst r1.
  read_line PromptMode mode_line r3 I3.
  { left. extend_from E4. }
  cbn [net stdin sent trace] in *. subst r2.
  right. exists url_line, refresh_line, mode_line, r3.
  eexists. eexists. split; [congruence|].
  unfold normalised_mode.
  match goal with
  | |- extends ?P _ (snd (?m ?b)) =>
      apply (extends_trans P w b); [| cut (emitting P m); [intros X; exact (X b)|]]
  end.
  - apply (extends_weaken no_post); [apply posts_only_no_post|].
    extend_from E4.
  - match goal with
    | |- emitting (posts_only ?b) _ => pose proof (posts_only_no_post b) as Q
    end.
    emitting_steps.
Qed.

(** C2, as amended: the mode of every retrieval request that [run_demo]
    posts is "community" exactly when the line typed at the mode prompt,
    stripped of surrounding whitespace and lower-cased, is "community", and
    "private" otherwise. *)
Theorem run_demo_posts_normalised_mode
  (json_dumps : value -> string) (w : world) (u : url) (body : value) :
  In (EPost u body) (events_since w (snd (run_demo json_dumps w))) ->
  exists url_line refresh_line mode_line rest,
    stdin w = url_line :: refresh_line :: mode_line :: rest
    /\ Py.get body "mode" VNone =
         Ok (VStr (if String.eqb (PyStr.lower (PyStr.strip mode_line)) "community"
                   then "community" else "private")).
Proof.
  intros H.
  destruct (run_demo_posts json_dumps w)
    as [E | (l1 & l2 & l3 & rest & url & fr & S & E)].
  - destruct (extends_since _ _ _ _ E H).
  - exists l1, l2, l3, rest. split; [exact S|].
    pose proof (extends_since _ _ _ _ E H) as B. simpl in B. subst body.
    reflexivity.
Qed.

Lemma run_demo_posts_normalised_mode_witness :
  exists url_line refresh_line mode_line rest,
    stdin (Sample.session [""; "n"; "Community"; "n"]%string) =
      url_line :: refresh_line :: mode_line :: rest
    /\ Py.get (request_body "https://example.com" false "community") "mode" VNone =
         Ok (VStr (if String.eqb (PyStr.lower (PyStr.strip mode_line)) "community"
                   then "community" else "private")).
Proof.
  apply (run_demo_posts_normalised_mode Sample.short_dumps
           (Sample.session [""; "n"; "Community"; "n"]%string)
           UrlRetrieve
           (request_body "https://example.com" false "community")).
  vm_compute. tauto.
Defined.

(** C2, as stated, fails: typed in capitals, or between spaces, the mode
    line is not exactly "community", and the request posted still asks for
    the mode "community". *)
Lemma run_demo_posts_community_for_variants :
  let requests_of lines :=
    filter is_http
      (trace (snd (run_demo Sample.short_dumps (Sample.session lines)))) in
  "COMMUNITY"%string <> "community"%string
  /\ " community "%string <> "community"%string
  /\ requests_of [""; "n"; "COMMUNITY"]%string =
       [EGet UrlTools;
        EPost UrlRetrieve (request_body "https://example.com" false "community");
        EGet (UrlRetrieveStatus (VStr "r1"))]
  /\ requests_of [""; "n"; " community "]%string =
       [EGet UrlTools;
        EPost UrlRetrieve (request_body "https://example.com" false "community");
        EGet (UrlRetrieveStatus (VStr "r1"))].
Proof.
  cbv zeta. repeat split; try discriminate; reflexivity.
Qed.

(** * Further properties *)

(** ** More on [poll_for_results] *)

Lemma is_terminal_cases (status : value) :
  is_terminal status = true ->
  status = VStr "complete" \/ status = VStr "failed" \/ status = VStr "canceled".
Proof.
  unfold is_terminal, Py.eq_str. destruct status; try discriminate.
  intros H. apply orb_true_iff in H. destruct H as [H | H].
  - apply orb_true_iff in H. destruct H as [H | H];
      apply String.eqb_eq in H; subst; auto.
  - apply String.eqb_eq in H; subst; auto.
Qed.

(** The payload an attempt returns is a non-empty object with a terminal
    status. *)
Lemma poll_attempt_returned (request_id : value) (attempt max_attempts : Z)
  (w w' : world) (result : value) :
  poll_attempt request_id attempt max_attempts w = (Ok (Some result), w') ->
  has_terminal_status result.
Proof.
  intros H.
  destruct (net w (sent w) (poll_request request_id)) as [msg|r] eqn:N.
  { rewrite (poll_attempt_net_error _ _ _ w msg N) in H. discriminate. }
  destruct (is_error_status (status_code r)) eqn:E.
  { rewrite (poll_attempt_http_error _ _ _ w r N E) in H. discriminate. }
  destruct (json_body r) as [payload|] eqn:J.
  2:{ rewrite (poll_attempt_unparsable _ _ _ w r N E J) in H. discriminate. }
  destruct (Py.truthy payload) eqn:T.
  2:{ rewrite (poll_attempt_falsy _ _ _ w r payload N E J T) in H. discriminate. }
  destruct payload as [| b | n | q | s | wb wh wa | l | items];
    try (rewrite (poll_attempt_not_dict _ _ _ w r _ N E J T eq_refl) in H;
         discriminate).
  assert (NE : items <> []) by (destruct items; [discriminate | congruence]).
  destruct (line_encodable
              (LPollStatus attempt max_attempts
                 match Py.lookup "status" items with
                 | Some s => s | None => VStr "unknown" end
                 match Py.lookup "message" items with
                 | Some s => s | None => VStr "" end)) eqn:P.
  2:{ rewrite (poll_attempt_unprintable _ _ _ w r items N E J NE P) in H.
      discriminate. }
  rewrite (poll_attempt_object _ _ _ w r items N E J NE P) in H. cbv zeta in H.
  destruct (Py.lookup "status" items) as [status|] eqn:L.
  2:{ cbn in H. discriminate. }
  assert (K : is_terminal status = true /\ result = VDict items).
  { unfold is_terminal.
    destruct (Py.eq_str status "complete"); [split; [reflexivity | congruence]|].
    cbn [orb].
    destruct (Py.eq_str status "failed" || Py.eq_str status "canceled");
      [|discriminate].
    destruct (Py.encodable
                match Py.lookup "error" items with
                | Some s => s | None => VStr "Unknown error" end);
      [split; [reflexivity | congruence] | discriminate]. }
  destruct K as [K ->]. unfold has_terminal_status, has_status.
  destruct (is_terminal_cases status K) as [-> | [-> | ->]];
    [left | right; left | right; right]; exists items; auto.
Qed.

(** The two ways a run of the loop goes: waiting rounds throughout, or
    waiting rounds and then an attempt that returns. *)
Lemma poll_loop_shape (request_id : value) (max_attempts : Z)
  (attempts : list Z) (w : world) :
  (exists ls,
      List.length ls = List.length attempts
      /\ poll_loop request_id max_attempts attempts w =
           (Ok None,
            advance w (List.length ls) (flat_map (waiting_events request_id) ls)))
  \/ (exists ls result tail,
        (List.length ls < List.length attempts)%nat
        /\ poll_loop request_id max_attempts attempts w =
             (Ok (Some result),
              advance w (S (List.length ls))
                (flat_map (waiting_events request_id) ls
                 ++ EGet (UrlRetrieveStatus request_id) :: tail))
        /\ has_terminal_status result
        /\ actions tail = []).
Proof.
  revert w. induction attempts as [|a rest IH]; intros w.
  - left. exists []. split; [reflexivity|]. simpl. unfold ret.
    now rewrite advance_zero.
  - destruct (poll_attempt_cases request_id max_attempts a w)
      as [(l & P & _) | (v & s & evs & P & _ & _ & _ & A)].
    + destruct (IH (advance w 1 (waiting_events request_id l)))
        as [(ls & L & Q) | (ls & v & tail & L & Q & T & A)].
      * left. exists (l :: ls). split; [simpl; now rewrite L|].
        cbn [poll_loop]. unfold bind. rewrite P. cbv beta iota. rewrite Q.
        rewrite advance_advance. f_equal. f_equal. simpl. lia.
      * right. exists (l :: ls), v, tail. split; [simpl; lia|].
        split; [|now split].
        cbn [poll_loop]. unfold bind. rewrite P. cbv beta iota. rewrite Q.
        rewrite advance_advance. f_equal. f_equal; [simpl; lia|].
        cbn [flat_map]. now rewrite <- app_assoc.
    + right. exists [], v, evs. split; [simpl; lia|].
      split; [|split; [|exact A]].
      * cbn [poll_loop]. unfold bind. rewrite P. reflexivity.
      * exact (poll_attempt_returned _ _ _ _ _ _ P).
Qed.

Lemma https_of_waiting_rounds (request_id : value) (ls : list line) :
  filter is_http (flat_map (waiting_round request_id) ls) =
    repeat (EGet (UrlRetrieveStatus request_id)) (List.length ls).
Proof.
  induction ls as [|l ls IH]; [reflexivity|]. simpl. now rewrite IH.
Qed.

Lemma filter_prints (f : event -> bool) (ls : list line) :
  (forall l, f (EPrint l) = false) -> filter f (map EPrint ls) = [].
Proof.
  intros H. induction ls as [|l ls IH]; [reflexivity|].
  simpl. now rewrite H.
Qed.

Lemma http_of_waiting_events (request_id : value) (ls : list line) :
  filter is_http (waiting_events request_id ls) =
    [EGet (UrlRetrieveStatus request_id)].
Proof.
  unfold waiting_events. cbn [filter is_http].
  now rewrite filter_app, (filter_prints is_http) by reflexivity.
Qed.

Lemma sleep_of_waiting_events (request_id : value) (ls : list line) :
  filter is_sleep (waiting_events request_id ls) = [ESleep 2].
Proof.
  unfold waiting_events. cbn [filter is_sleep].
  now rewrite filter_app, (filter_prints is_sleep) by reflexivity.
Qed.

Lemma https_of_waiting_events (request_id : value) (lss : list (list line)) :
  filter is_http (flat_map (waiting_events request_id) lss) =
    repeat (EGet (UrlRetrieveStatus request_id)) (List.length lss).
Proof.
  induction lss as [|ls lss IH]; [reflexivity|].
  cbn [flat_map List.length repeat].
  now rewrite filter_app, http_of_waiting_events, IH.
Qed.

Lemma sleeps_of_waiting_events (request_id : value) (lss : list (list line)) :
  filter is_sleep (flat_map (waiting_events request_id) lss) =
    repeat (ESleep 2) (List.length lss).
Proof.
  induction lss as [|ls lss IH]; [reflexivity|].
  cbn [flat_map List.length repeat].
  now rewrite filter_app, sleep_of_waiting_events, IH.
Qed.

Lemma actions_nil_parts (evs : list event) :
  actions evs = [] -> filter is_http evs = [] /\ filter is_sleep evs = [].
Proof.
  unfold actions. induction evs as [|e evs IH]; [now split|].
  simpl. destruct (is_http e) eqn:H, (is_sleep e) eqn:S; simpl;
    try discriminate. exact IH.
Qed.

Lemma repeat_snoc {A} (x : A) (n : nat) : repeat x n ++ [x] = repeat x (S n).
Proof. induction n as [|n IH]; [reflexivity|]. simpl. now rewrite IH. Qed.

(** X1: [poll_for_results] raises nothing and reads nothing from the
    console; it sends at most [max_attempts] requests (none when
    [max_attempts] is not positive), all of them GETs of the status URL of
    the request id it was given. *)
Theorem poll_requests_bounded (request_id : value) (max_attempts : Z) (w : world) :
  exists v n evs,
    poll_for_results request_id max_attempts w = (Ok v, advance w n evs)
    /\ Z.of_nat n <= Z.max 0 max_attempts
    /\ filter is_http evs = repeat (EGet (UrlRetrieveStatus request_id)) n.
Proof.
  pose proof (range_length 1 (max_attempts + 1)) as RL.
  replace (max_attempts + 1 - 1) with max_attempts in RL by lia.
  unfold poll_for_results, bind.
  destruct (poll_loop_shape request_id max_attempts
              (Py.range 1 (max_attempts + 1)) w)
    as [(ls & L & Q) | (ls & v & tail & L & Q & T & A)]; rewrite Q.
  - exists VNone, (List.length ls), (flat_map (waiting_events request_id) ls ++ [EPrint LTimeout]).
    split; [|split].
    + simpl. unfold print, bind, ret. cbn [line_encodable]. settle_world. reflexivity.
    + lia.
    + rewrite filter_app, https_of_waiting_events. simpl. apply app_nil_r.
  - exists v, (S (List.length ls)),
      (flat_map (waiting_events request_id) ls ++ EGet (UrlRetrieveStatus request_id) :: tail).
    split; [reflexivity|]. split; [lia|].
    rewrite filter_app, https_of_waiting_events. cbn [filter is_http].
    destruct (actions_nil_parts tail A) as [-> _]. apply repeat_snoc.
Qed.

(** X2: what [poll_for_results] returns is either [None] or a payload that
    is an object whose status field is "complete", "failed" or "canceled". *)
Theorem poll_returns_none_or_terminal (request_id : value) (max_attempts : Z)
  (w : world) :
  exists v,
    fst (poll_for_results request_id max_attempts w) = Ok v
    /\ (v = VNone \/ has_terminal_status v).
Proof.
  unfold poll_for_results, bind.
  destruct (poll_loop_shape request_id max_attempts
              (Py.range 1 (max_attempts + 1)) w)
    as [(ls & L & Q) | (ls & v & tail & L & Q & T & A)]; rewrite Q.
  - exists VNone. split; [reflexivity | now left].
  - exists v. split; [reflexivity | now right].
Qed.

(** X3: every wait of [poll_for_results] is of 2 seconds, and there is one
    after each request, except after the request whose payload is returned:
    a run that returns a payload after [n] requests has slept [n - 1] times,
    a run that times out has slept once per request. *)
Theorem poll_sleeps_after_each_waiting_request (request_id : value)
  (max_attempts : Z) (w : world) :
  exists v n evs,
    poll_for_results request_id max_attempts w = (Ok v, advance w n evs)
    /\ ((v = VNone /\ filter is_sleep evs = repeat (ESleep 2) n)
        \/ (has_terminal_status v
            /\ exists k, n = S k /\ filter is_sleep evs = repeat (ESleep 2) k)).
Proof.
  unfold poll_for_results, bind.
  destruct (poll_loop_shape request_id max_attempts
              (Py.range 1 (max_attempts + 1)) w)
    as [(ls & L & Q) | (ls & v & tail & L & Q & T & A)]; rewrite Q.
  - exists VNone, (List.length ls), (flat_map (waiting_events request_id) ls ++ [EPrint LTimeout]).
    split.
    + simpl. unfold print, bind, ret. cbn [line_encodable]. settle_world. reflexivity.
    + left. split; [reflexivity|].
      rewrite filter_app, sleeps_of_waiting_events. simpl. apply app_nil_r.
  - exists v, (S (List.length ls)),
      (flat_map (waiting_events request_id) ls ++ EGet (UrlRetrieveStatus request_id) :: tail).
    split; [reflexivity|]. right. split; [exact T|].
    exists (List.length ls). split; [reflexivity|].
    rewrite filter_app, sleeps_of_waiting_events. cbn [filter is_sleep].
    destruct (actions_nil_parts tail A) as [_ ->]. apply app_nil_r.
Qed.

(** X4: with no attempt allowed ([max_attempts <= 0]) the poll sends
    nothing: it prints the timeout line and returns [None]. *)
Theorem poll_without_attempts (request_id : value) (max_attempts : Z) (w : world) :
  max_attempts <= 0 ->
  poll_for_results request_id max_attempts w =
    (Ok VNone, advance w 0 [EPrint LTimeout]).
Proof.
  intros H. unfold poll_for_results, bind, Py.range.
  replace (Z.to_nat (max_attempts + 1 - 1)) with 0%nat by lia.
  simpl. unfold print, bind, ret. cbn [line_encodable]. settle_world. reflexivity.
Qed.

Lemma poll_without_attempts_witness :
  poll_for_results Sample.request_id (-1) (Sample.always_status "complete") =
    (Ok VNone, advance (Sample.always_status "complete") 0 [EPrint LTimeout]).
Proof.
  apply (poll_without_attempts Sample.request_id (-1)
           (Sample.always_status "complete")).
  lia.
Defined.

(** X5: an iteration whose response passes the status check and parses to
    a truthy value that is not an object (a list, a number, a string,
    [True]) fails on [result.get]: the AttributeError is printed, the poll
    waits 2 seconds and goes on with the remaining attempts. *)
Theorem poll_non_object_payload_is_retried
  (request_id : value) (max_attempts : Z) (pre post : list Z) (attempt : Z)
  (w w1 : world) (r : response) (result : value) :
  Py.range 1 (max_attempts + 1) = pre ++ attempt :: post ->
  poll_loop request_id max_attempts pre w = (Ok None, w1) ->
  net w1 (sent w1) (poll_request request_id) = Response r ->
  response_ok r = true ->
  json_body r = Some result ->
  Py.truthy result = true ->
  (forall items, result <> VDict items) ->
  poll_for_results request_id max_attempts w =
    bind (poll_loop request_id max_attempts post) after_poll_loop
      (advance w1 1
         [EGet (UrlRetrieveStatus request_id);
          EPrint (LPollError attempt max_attempts AttributeError);
          ESleep 2]).
Proof.
  intros R P N K J T D. apply negb_true_iff in K.
  assert (G : Py.get result "status" (VStr "unknown") = Raise AttributeError).
  { destruct result; try reflexivity. now destruct (D items). }
  rewrite (poll_for_results_reaches _ _ pre post attempt w w1 R P).
  unfold bind at 1. cbn [poll_loop]. unfold bind at 1.
  rewrite (poll_attempt_not_dict _ attempt max_attempts w1 r result N K J T G).
  reflexivity.
Qed.

Lemma poll_non_object_payload_is_retried_witness :
  poll_for_results Sample.request_id 1
    (Sample.scripted (fun _ => Sample.json_response 200 (VList [VInt 1])) []) =
    (Ok VNone,
     advance (Sample.scripted (fun _ => Sample.json_response 200 (VList [VInt 1])) []) 1
       [EGet (UrlRetrieveStatus Sample.request_id);
        EPrint (LPollError 1 1 AttributeError);
        ESleep 2;
        EPrint LTimeout]).
Proof.
  rewrite (poll_non_object_payload_is_retried Sample.request_id 1 [] [] 1
             (Sample.scripted (fun _ => Sample.json_response 200 (VList [VInt 1])) [])
             (Sample.scripted (fun _ => Sample.json_response 200 (VList [VInt 1])) [])
             (mkResponse 200 "<json>" (Some (VList [VInt 1]))) (VList [VInt 1])).
  - reflexivity.
  - reflexivity.
  - reflexivity.
  - reflexivity.
  - reflexivity.
  - reflexivity.
  - reflexivity.
  - intros items. discriminate.
Defined.



(** ** [get_mcp_tools] *)

(** X7: when the tools endpoint answers with a status that is not an error
    and a body that parses to an object, [get_mcp_tools] returns the value
    of its "tools" field as the server sent it ([None] when the field is
    absent) and prints nothing. *)
Theorem get_mcp_tools_returns_tools_field (w : world) (r : response)
  (items : list (string * value)) :
  net w (sent w) (ReqGet UrlTools) = Response r ->
  response_ok r = true ->
  json_body r = Some (VDict items) ->
  get_mcp_tools w =
    (Ok (match Py.lookup "tools" items with Some tools => tools | None => VNone end),
     advance w 1 [EGet UrlTools]).
Proof.
  intros N K J. apply negb_true_iff in K.
  unfold get_mcp_tools, try_except, bind, session_get, send.
  rewrite N. unfold raise_for_status, response_json. rewrite K, J.
  cbn. settle_world. reflexivity.
Qed.

Lemma get_mcp_tools_returns_tools_field_witness :
  get_mcp_tools (Sample.session []) =
    (Ok (VList [VDict [("name", VStr "retrieve");
                       ("description", VStr "Retrieve a page")]]),
     advance (Sample.session []) 1 [EGet UrlTools]).
Proof.
  apply (get_mcp_tools_returns_tools_field (Sample.session [])
           (mkResponse 200 "<json>"
              (Some (VDict [("tools",
                             VList [VDict [("name", VStr "retrieve");
                                           ("description", VStr "Retrieve a page")]])])))
           [("tools",
             VList [VDict [("name", VStr "retrieve");
                           ("description", VStr "Retrieve a page")]])]).
  - reflexivity.
  - reflexivity.
  - reflexivity.
Defined.



(** ** More on [submit_retrieve_request] *)

(** X9: when the submit endpoint answers with a status that is not an
    error and a body that parses, [submit_retrieve_request] returns the
    parsed payload as it is and prints nothing. *)
Theorem submit_success_returns_payload
  (url : string) (force_refresh : bool) (mode : string) (w : world)
  (r : response) (payload : value) :
  net w (sent w) (ReqPost UrlRetrieve (request_body url force_refresh mode))
    = Response r ->
  response_ok r = true ->
  json_body r = Some payload ->
  submit_retrieve_request url force_refresh mode w =
    (Ok payload,
     advance w 1 [EPost UrlRetrieve (request_body url force_refresh mode)]).
Proof.
  intros N K J.
  unfold submit_retrieve_request, try_except, bind, session_post, send.
  rewrite N. cbv zeta. rewrite K. cbn [negb].
  unfold raise_for_status, response_json, response_ok in *.
  apply negb_true_iff in K. rewrite K, J.
  cbn. settle_world. reflexivity.
Qed.

Lemma submit_success_returns_payload_witness :
  submit_retrieve_request "https://example.com" true "community"
    (Sample.scripted (fun _ => Sample.json_response 201 Sample.accepted) []) =
    (Ok Sample.accepted,
     advance (Sample.scripted (fun _ => Sample.json_response 201 Sample.accepted) []) 1
       [EPost UrlRetrieve (request_body "https://example.com" true "community")]).
Proof.
  apply (submit_success_returns_payload "https://example.com" true "community"
           (Sample.scripted (fun _ => Sample.json_response 201 Sample.accepted) [])
           (mkResponse 201 "<json>" (Some Sample.accepted)) Sample.accepted).
  - reflexivity.
  - reflexivity.
  - reflexivity.
Defined.



(** X11: whatever the network does, [submit_retrieve_request] raises
    nothing, reads nothing from the console, and sends exactly one request:
    the POST of the request body built from its arguments, after which it
    prints at most one line. *)
Theorem submit_posts_exactly_once
  (url : string) (force_refresh : bool) (mode : string) (w : world) :
  exists v evs,
    submit_retrieve_request url force_refresh mode w =
      (Ok v,
       advance w 1
         (EPost UrlRetrieve (request_body url force_refresh mode) :: evs))
    /\ (evs = [] \/ exists l, evs = [EPrint l]).
Proof.
  unfold submit_retrieve_request, try_except, bind, session_post, send.
  destruct (net w (sent w) (ReqPost UrlRetrieve (request_body url force_refresh mode)))
    as [msg|r].
  { do 2 eexists. split.
    - cbn. unfold print, bind, ret. cbn [line_encodable]. settle_world. reflexivity.
    - right. eexists. reflexivity. }
  cbv zeta. unfold response_ok, raise_for_status, response_json.
  destruct (is_error_status (status_code r)).
  { do 2 eexists. split.
    - cbn. unfold print, bind, ret. cbn [line_encodable]. settle_world. reflexivity.
    - right. eexists. reflexivity. }
  destruct (json_body r) as [v|].
  - do 2 eexists. split.
    + cbn. settle_world. reflexivity.
    + now left.
  - do 2 eexists. split.
    + cbn. unfold print, bind, ret. cbn [line_encodable]. settle_world. reflexivity.
    + right. eexists. reflexivity.
Qed.

(** ** More on [download_page_data] *)






(** ** More on [run_demo] *)

Lemma events_since_app (w w' : world) (evs : list event) :
  trace w' = trace w ++ evs -> events_since w w' = evs.
Proof.
  intros T. unfold events_since.
  rewrite T, skipn_app, skipn_all, Nat.sub_diag. reflexivity.
Qed.

Lemma bind_print {B} (l : line) (f : unit -> M B) (w : world) :
  line_encodable l = true ->
  bind (print l) f w = f tt (emit_event (EPrint l) w).
Proof. intros E. unfold bind, print. rewrite E. reflexivity. Qed.

Lemma bind_print_either {B} (b : bool) (l1 l2 : line) (f : unit -> M B)
  (w : world) :
  line_encodable l1 = true ->
  line_encodable l2 = true ->
  bind (if b then print l1 else print l2) f w =
    f tt (emit_event (EPrint (if b then l1 else l2)) w).
Proof. intros E1 E2. destruct b; unfold bind, print; [rewrite E1 | rewrite E2]; reflexivity. Qed.

(** A line is printable when it is one of the fixed texts, or when the
    values it interpolates are known to be. *)
Ltac printable :=
  solve [ reflexivity
        | assumption
        | cbn [line_encodable Py.encodable];
          repeat match goal with
                 | H : Py.encodable _ = true |- _ => rewrite H
                 end;
          reflexivity ].

Lemma bind_ok {A B} (m : M A) (f : A -> M B) (w w' : world) (a : A) :
  m w = (Ok a, w') -> bind m f w = f a w'.
Proof. intros H. unfold bind. now rewrite H. Qed.

(** A submission is one POST, then lines printed, and a value returned. *)
Lemma submit_posts_then_prints
  (url : string) (force_refresh : bool) (mode : string) (w : world) :
  exists v evs,
    submit_retrieve_request url force_refresh mode w =
      (Ok v,
       advance w 1
         (EPost UrlRetrieve (request_body url force_refresh mode) :: evs))
    /\ Forall no_post evs.
Proof.
  unfold submit_retrieve_request, try_except, bind, session_post, send.
  destruct (net w (sent w) (ReqPost UrlRetrieve (request_body url force_refresh mode)))
    as [msg|r].
  { do 2 eexists. split.
    - cbn. unfold print, bind, ret. cbn [line_encodable]. settle_world. reflexivity.
    - repeat constructor. }
  cbv zeta. unfold response_ok, raise_for_status, response_json.
  destruct (is_error_status (status_code r)).
  { do 2 eexists. split.
    - cbn. unfold print, bind, ret. cbn [line_encodable]. settle_world. reflexivity.
    - repeat constructor. }
  destruct (json_body r) as [v|].
  - do 2 eexists. split.
    + cbn. settle_world. reflexivity.
    + constructor.
  - do 2 eexists. split.
    + cbn. unfold print, bind, ret. cbn [line_encodable]. settle_world. reflexivity.
    + repeat constructor.
Qed.

(** Either [run_demo] posts nothing, or it has read its three answers and
    posts once: the request body built from them, sent to the retrieve
    endpoint. *)
Lemma run_demo_posts_once (json_dumps : value -> string) (w : world) :
  extends no_post w (snd (run_demo json_dumps w))
  \/ exists url_line refresh_line mode_line rest before after,
       stdin w = url_line :: refresh_line :: mode_line :: rest
       /\ events_since w (snd (run_demo json_dumps w)) =
            before
            ++ EPost UrlRetrieve
                 (request_body (resolved_url url_line) (is_yes refresh_line)
                    (normalised_mode mode_line))
               :: after
       /\ Forall no_post before
       /\ Forall no_post after.
Proof.
  unfold run_demo.
  apply (bind_quiet _ _ w w); [apply quiet_print | reflexivity | apply extends_refl | now left |].
  intros _ w1 S1 E1.
  apply (bind_quiet _ _ w w1); [apply quiet_get_mcp_tools | exact S1 | exact E1 | now left |].
  intros tools w2 S2 E2.
  apply (bind_quiet _ _ w w2); [ | exact S2 | exact E2 | now left |].
  { destruct (Py.truthy tools); [|apply quiet_print].
    repeat (apply quiet_bind; [first [apply quiet_lift | apply quiet_print]|intros ?]).
    apply quiet_print_tools. }
  intros _ w3 S3 E3.
  apply (bind_quiet _ _ w w3); [apply quiet_print | exact S3 | exact E3 | now left |].
  intros _ w4 S4 E4.
  read_line PromptUrl url_line r1 I1.
  { left. extend_from E4. }
  cbv zeta.
  read_line PromptForceRefresh refresh_line r2 I2.
  { left. extend_from E4. }
  cbn [net stdin sent trace] in *. subst r1.
  read_line PromptMode mode_line r3 I3.
  { left. extend_from E4. }
  cbn [net stdin sent trace] in *. subst r2.
  right. exists url_line, refresh_line, mode_line, r3.
  fold (resolved_url url_line) (is_yes refresh_line) (normalised_mode mode_line).
  rewrite bind_print, bind_print_either, bind_print by printable.
  match goal with
  | |- context [bind (submit_retrieve_request ?u ?f ?m) ?k ?w5] =>
      destruct (submit_posts_then_prints u f m w5) as (v & evs & Q & Hevs);
      rewrite (bind_ok _ k _ _ _ Q);
      assert (K : emitting no_post (k v))
        by (assert (forall e, no_post e -> no_post e) by auto; emitting_steps);
      destruct (K (advance w5 1 (EPost UrlRetrieve (request_body u f m) :: evs)))
        as (evs3 & T3 & F3)
  end.
  destruct E4 as (evs0 & T0 & F0).
  exists (evs0 ++
          [EInput PromptUrl; EInput PromptForceRefresh; EInput PromptMode;
           EPrint (LStep2 (resolved_url url_line));
           EPrint (if is_yes refresh_line then LForcing else LWillUseCache);
           EPrint (LMode (normalised_mode mode_line))]).
  exists (evs ++ evs3).
  split; [rewrite <- S4; exact I1|]. split; [|split].
  - apply events_since_app. rewrite T3. cbn [advance trace emit_event].
    rewrite T0. repeat rewrite <- app_assoc. cbn [app]. reflexivity.
  - apply Forall_app. split; [exact F0|]. repeat constructor.
  - apply Forall_app. split; [exact Hevs | exact F3].
Qed.

Lemma no_post_is_post (evs : list event) :
  Forall no_post evs -> filter is_post evs = [].
Proof.
  induction 1 as [|e evs H _ IH]; [reflexivity|].
  simpl. destruct e; simpl in *; try exact IH. contradiction.
Qed.

(** X14: every POST that [run_demo] sends goes to the retrieve endpoint
    and carries the body made of the three lines typed: the URL stripped
    ("https://example.com" when nothing is left), forceRefresh true exactly
    when the second line, stripped and lower-cased, is "y", the mode
    normalised from the third, and timeoutSeconds 60. *)
Theorem run_demo_request_body
  (json_dumps : value -> string) (w : world) (u : url) (body : value) :
  In (EPost u body) (events_since w (snd (run_demo json_dumps w))) ->
  exists url_line refresh_line mode_line rest,
    stdin w = url_line :: refresh_line :: mode_line :: rest
    /\ u = UrlRetrieve
    /\ body =
         VDict [("url", VStr (if PyStr.is_empty (PyStr.strip url_line)
                              then "https://example.com"
                              else PyStr.strip url_line));
                ("timeoutSeconds", VInt 60);
                ("forceRefresh",
                 VBool (String.eqb (PyStr.lower (PyStr.strip refresh_line)) "y"));
                ("mode",
                 VStr (if String.eqb (PyStr.lower (PyStr.strip mode_line)) "community"
                       then "community" else "private"))].
Proof.
  intros H.
  destruct (run_demo_posts_once json_dumps w)
    as [E | (l1 & l2 & l3 & rest & before & after & S & T & F1 & F2)].
  - destruct (extends_since _ _ _ _ E H).
  - exists l1, l2, l3, rest. split; [exact S|].
    rewrite T in H. apply in_app_or in H. rewrite Forall_forall in F1, F2.
    destruct H as [H | [H | H]].
    + destruct (F1 _ H).
    + inversion H. split; reflexivity.
    + destruct (F2 _ H).
Qed.

Lemma run_demo_request_body_witness :
  exists url_line refresh_line mode_line rest,
    stdin (Sample.session ["  "; " Y "; "private"; "n"]%string) =
      url_line :: refresh_line :: mode_line :: rest
    /\ UrlRetrieve = UrlRetrieve
    /\ request_body "https://example.com" true "private" =
         VDict [("url", VStr (if PyStr.is_empty (PyStr.strip url_line)
                              then "https://example.com"
                              else PyStr.strip url_line));
                ("timeoutSeconds", VInt 60);
                ("forceRefresh",
                 VBool (String.eqb (PyStr.lower (PyStr.strip refresh_line)) "y"));
                ("mode",
                 VStr (if String.eqb (PyStr.lower (PyStr.strip mode_line)) "community"
                       then "community" else "private"))].
Proof.
  apply (run_demo_request_body Sample.short_dumps
           (Sample.session ["  "; " Y "; "private"; "n"]%string)
           UrlRetrieve (request_body "https://example.com" true "private")).
  vm_compute. tauto.
Defined.

(** X15: [run_demo] submits at most once: whatever the server answers and
    whatever is typed, its run contains at most one POST. *)
Theorem run_demo_posts_at_most_once (json_dumps : value -> string) (w : world) :
  (List.length
     (filter is_post (events_since w (snd (run_demo json_dumps w)))) <= 1)%nat.
Proof.
  destruct (run_demo_posts_once json_dumps w)
    as [(evs & T & F) | (l1 & l2 & l3 & rest & before & after & S & T & F1 & F2)].
  - rewrite (events_since_app _ _ _ T), (no_post_is_post _ F). simpl. lia.
  - rewrite T, filter_app. cbn [filter is_post].
    rewrite (no_post_is_post _ F1), (no_post_is_post _ F2). simpl. lia.
Qed.


Lemma input_line (p : prompt) (w : world) (l : string) (rest : list string) :
  stdin w = l :: rest ->
  input p w = (Ok l, mkWorld (net w) rest (sent w) (trace w ++ [EInput p])).
Proof. intros I. unfold input. rewrite I. reflexivity. Qed.

Lemma get_mcp_tools_net_error (w : world) (msg : string) :
  net w (sent w) (ReqGet UrlTools) = NetError msg ->
  get_mcp_tools w =
    (Ok VNone,
     advance w 1 [EGet UrlTools; EPrint (LToolsError (RequestException msg))]).
Proof.
  intros N. unfold get_mcp_tools, try_except, bind, session_get, send.
  rewrite N. cbn. unfold print, bind, ret. cbn [line_encodable]. settle_world. reflexivity.
Qed.

Lemma submit_net_error (url : string) (force_refresh : bool) (mode : string)
  (w : world) (msg : string) :
  net w (sent w) (ReqPost UrlRetrieve (request_body url force_refresh mode))
    = NetError msg ->
  submit_retrieve_request url force_refresh mode w =
    (Ok VNone,
     advance w 1
       [EPost UrlRetrieve (request_body url force_refresh mode);
        EPrint (LSubmitError (RequestException msg))]).
Proof.
  intros N.
  unfold submit_retrieve_request, try_except, bind, session_post, send.
  rewrite N. cbn. unfold print, bind, ret. cbn [line_encodable]. settle_world. reflexivity.
Qed.

(** X16: when no request gets through and three lines are typed, [run_demo]
    ends normally after two requests, the discovery and the submission, each
    reported as failed; it does not poll and reads no further line. *)
Theorem run_demo_with_unreachable_server
  (json_dumps : value -> string) (w : world)
  (url_line refresh_line mode_line : string) (rest : list string) :
  (forall k req, exists msg, net w k req = NetError msg) ->
  stdin w = url_line :: refresh_line :: mode_line :: rest ->
  exists msg1 msg2,
    run_demo json_dumps w =
      (Ok tt,
       mkWorld (net w) rest (2 + sent w)
         (trace w ++
          [EPrint LStep1; EGet UrlTools;
           EPrint (LToolsError (RequestException msg1)); EPrint LNoTools;
           EPrint LSeparator;
           EInput PromptUrl; EInput PromptForceRefresh; EInput PromptMode;
           EPrint (LStep2 (resolved_url url_line));
           EPrint (if is_yes refresh_line then LForcing else LWillUseCache);
           EPrint (LMode (normalised_mode mode_line));
           EPost UrlRetrieve
             (request_body (resolved_url url_line) (is_yes refresh_line)
                (normalised_mode mode_line));
           EPrint (LSubmitError (RequestException msg2));
           EPrint LSubmitFailed])).
Proof.
  intros H I.
  destruct (H (sent w) (ReqGet UrlTools)) as [msg1 N1].
  destruct (H (S (sent w))
              (ReqPost UrlRetrieve
                 (request_body (resolved_url url_line) (is_yes refresh_line)
                    (normalised_mode mode_line)))) as [msg2 N2].
  exists msg1, msg2.
  unfold run_demo. rewrite bind_print by printable.
  erewrite bind_ok; [| apply (get_mcp_tools_net_error _ msg1); exact N1].
  cbn [Py.truthy]. rewrite bind_print, bind_print by printable.
  unfold emit_event, advance. cbn [net stdin sent trace].
  erewrite bind_ok; [| apply (input_line _ _ url_line); exact I].
  cbv zeta. cbn [net stdin sent trace].
  erewrite bind_ok; [| apply (input_line _ _ refresh_line); reflexivity].
  cbn [net stdin sent trace].
  erewrite bind_ok; [| apply (input_line _ _ mode_line); reflexivity].
  cbn [net stdin sent trace].
  fold (resolved_url url_line) (is_yes refresh_line) (normalised_mode mode_line).
  rewrite bind_print, bind_print_either, bind_print by printable.
  unfold emit_event. cbn [net stdin sent trace].
  erewrite bind_ok; [| apply (submit_net_error _ _ _ _ msg2); exact N2].
  change (negb (Py.truthy VNone)) with true. cbv iota.
  unfold print, emit_event, advance. cbn [line_encodable].
  cbn [stdin net sent trace]. repeat rewrite <- app_assoc. reflexivity.
Qed.

Lemma run_demo_with_unreachable_server_witness :
  fst (run_demo Sample.short_dumps
         (Sample.scripted (fun _ => NetError "connection refused")
            ["example.org"; ""; ""]%string)) = Ok tt.
Proof.
  destruct (run_demo_with_unreachable_server Sample.short_dumps
              (Sample.scripted (fun _ => NetError "connection refused")
                 ["example.org"; ""; ""]%string)
              "example.org" "" "" [])
    as (msg1 & msg2 & E).
  - intros k req. exists "connection refused"%string. reflexivity.
  - reflexivity.
  - rewrite E. reflexivity.
Defined.

(** ** The download prompt of [run_demo] *)

Lemma idle_ret {A} (a : A) : idle (ret a).
Proof. intros w. now split. Qed.

Lemma idle_lift {A} (r : result A) : idle (lift r).
Proof. intros w. now split. Qed.

Lemma idle_print (l : line) : idle (print l).
Proof. intros w. unfold print. destruct (line_encodable l); now split. Qed.

Lemma idle_bind {A B} (m : M A) (f : A -> M B) :
  idle m -> (forall a, idle (f a)) -> idle (bind m f).
Proof.
  intros Hm Hf w. unfold bind. destruct (Hm w) as [S1 S2].
  destruct (m w) as [[a|e] w1]; simpl in *; [|now split].
  destruct (Hf a w1) as [S3 S4]. split; congruence.
Qed.

(** Decomposes a computation made of pure steps and printing. *)
Ltac idle_steps :=
  repeat first
    [ apply idle_ret
    | apply idle_lift
    | apply idle_print
    | apply idle_bind; [| intros ?]
    | match goal with
      | |- idle (if ?b then _ else _) => destruct b
      end ].

(** An idle step of a run keeps what holds of a run that has read nothing
    and sent nothing so far. *)
Lemma bind_idle {A B} (m : M A) (f : A -> M B) (w0 w : world)
  (Post : world -> Prop) :
  idle m ->
  stdin w = stdin w0 ->
  sent w = sent w0 ->
  (forall w', sent w' = sent w0 -> Post w') ->
  (forall a w', stdin w' = stdin w0 -> sent w' = sent w0 ->
                Post (snd (f a w'))) ->
  Post (snd (bind m f w)).
Proof.
  intros Q S1 S2 Stop Go. unfold bind. destruct (Q w) as [S3 S4].
  destruct (m w) as [[a|e] w1]; simpl in *.
  - apply Go; congruence.
  - apply Stop. congruence.
Qed.

(** X17: the page data are fetched only on a yes: unless the line typed at
    the download prompt, stripped and lower-cased, is "y", showing the
    content of a result sends no request. *)
Theorem show_content_downloads_only_on_yes
  (json_dumps : value -> string) (result : value) (w : world) :
  (forall answer rest,
      stdin w = answer :: rest ->
      String.eqb (PyStr.lower (PyStr.strip answer)) "y" = false) ->
  sent (snd (show_content json_dumps result w)) = sent w.
Proof.
  intros H. unfold show_content.
  repeat (apply (bind_idle _ _ w);
          [ solve [idle_steps] | assumption || reflexivity | assumption || reflexivity
          | intros ? ?; assumption | intros ? ? ? ?]).
  match goal with
  | |- context [bind (input PromptDownload) _ ?w8] =>
      match goal with
      | S : stdin w8 = stdin w, E : sent w8 = sent w |- _ =>
          read_line PromptDownload answer rest Hline;
          [ exact E | rewrite S in Hline; rewrite (H answer rest Hline); exact E ]
      end
  end.
Qed.

Lemma show_content_downloads_only_on_yes_witness :
  sent (snd (show_content Sample.short_dumps
               (VDict [("content", VDict [("pageDataUrl", VStr "https://cdn.example/p1")])])
               (Sample.session ["no"]%string))) = 0%nat.
Proof.
  apply (show_content_downloads_only_on_yes Sample.short_dumps
           (VDict [("content", VDict [("pageDataUrl", VStr "https://cdn.example/p1")])])
           (Sample.session ["no"]%string)).
  intros answer rest E. inversion E. reflexivity.
Defined.

(** ** [run] and [main]: what leaves the program *)

Lemma py_get_raises (v : value) (k : string) (d : value) (e : exn) :
  Py.get v k d = Raise e -> is_Exception e = true.
Proof. destruct v; simpl; intros H; inversion H; reflexivity. Qed.

Lemma py_getitem_raises (v : value) (k : string) (e : exn) :
  Py.getitem v k = Raise e -> is_Exception e = true.
Proof.
  destruct v; simpl; try (intros H; inversion H; reflexivity).
  destruct (Py.lookup k items); intros H; inversion H; reflexivity.
Qed.

Lemma py_len_raises (v : value) (e : exn) :
  Py.len v = Raise e -> is_Exception e = true.
Proof. destruct v; simpl; intros H; inversion H; reflexivity. Qed.

Lemma py_iter_raises (v : value) (e : exn) :
  Py.iter v = Raise e -> is_Exception e = true.
Proof. destruct v; simpl; intros H; inversion H; reflexivity. Qed.

Lemma py_keys_raises (v : value) (e : exn) :
  Py.keys v = Raise e -> is_Exception e = true.
Proof. destruct v; simpl; intros H; inversion H; reflexivity. Qed.

Lemma never_exits_ret {A} (a : A) : never_exits (ret a).
Proof. intros w e H. discriminate. Qed.

Lemma never_exits_print (l : line) : never_exits (print l).
Proof.
  intros w e. unfold print. destruct (line_encodable l); simpl; intros H;
    inversion H; reflexivity.
Qed.

Lemma never_exits_sleep (n : Z) : never_exits (sleep n).
Proof. intros w e H. discriminate. Qed.

Lemma never_exits_traceback : never_exits traceback_print_exc.
Proof. intros w e H. discriminate. Qed.

Lemma never_exits_lift {A} (r : result A) :
  (forall e, r = Raise e -> is_Exception e = true) -> never_exits (lift r).
Proof. intros H w e E. apply H. exact E. Qed.

Lemma never_exits_input (p : prompt) : never_exits (input p).
Proof.
  intros w e. unfold input. destruct (stdin w); simpl; intros H;
    inversion H; reflexivity.
Qed.

Lemma never_exits_send (req : request) (ev : event) : never_exits (send req ev).
Proof.
  intros w e. unfold send. destruct (net w (sent w) req); simpl; intros H;
    inversion H; reflexivity.
Qed.

Lemma never_exits_raise_for_status (r : response) :
  never_exits (raise_for_status r).
Proof.
  intros w e. unfold raise_for_status.
  destruct (is_error_status (status_code r)); simpl; intros H;
    inversion H; reflexivity.
Qed.

Lemma never_exits_response_json (r : response) : never_exits (response_json r).
Proof.
  intros w e. unfold response_json. destruct (json_body r); simpl; intros H;
    inversion H; reflexivity.
Qed.

Lemma never_exits_bind {A B} (m : M A) (f : A -> M B) :
  never_exits m -> (forall a, never_exits (f a)) -> never_exits (bind m f).
Proof.
  intros Hm Hf w e. unfold bind. specialize (Hm w).
  destruct (m w) as [[a|e'] w1]; simpl in *.
  - apply Hf.
  - intros H. inversion H. subst. now apply Hm.
Qed.

Lemma never_exits_try {A} (m : M A) (h : exn -> M A) :
  never_exits m -> (forall e, never_exits (h e)) -> never_exits (try_except m h).
Proof.
  intros Hm Hh w e. unfold try_except. specialize (Hm w).
  destruct (m w) as [[a|e'] w1]; simpl in *; [discriminate|].
  rewrite (Hm e' eq_refl). apply Hh.
Qed.

Create HintDb never_exits.

#[local] Hint Resolve py_get_raises py_getitem_raises py_len_raises
  py_iter_raises py_keys_raises : never_exits.

(** Decomposes a computation into steps that raise only [Exception]s. *)
Ltac never_exits_steps :=
  repeat first
    [ solve [auto 2 with never_exits nocore]
    | apply never_exits_ret
    | apply never_exits_print
    | apply never_exits_sleep
    | apply never_exits_traceback
    | apply never_exits_input
    | apply never_exits_send
    | apply never_exits_raise_for_status
    | apply never_exits_response_json
    | apply never_exits_lift; solve [eauto 2 with never_exits nocore]
    | apply never_exits_try; [| intros ?]
    | apply never_exits_bind; [| intros ?]
    | match goal with
      | |- never_exits (if ?b then _ else _) => destruct b
      | |- never_exits (match ?r with Some _ => _ | None => _ end) => destruct r
      end ].

Lemma never_exits_poll_loop (request_id : value) (max_attempts : Z)
  (attempts : list Z) :
  never_exits (poll_loop request_id max_attempts attempts).
Proof.
  induction attempts as [|a rest IH]; cbn [poll_loop].
  - apply never_exits_ret.
  - apply never_exits_bind.
    + unfold poll_attempt, poll_iteration, session_get. never_exits_steps.
    + intros [v|]; [apply never_exits_ret | exact IH].
Qed.

Lemma never_exits_poll_for_results (request_id : value) (max_attempts : Z) :
  never_exits (poll_for_results request_id max_attempts).
Proof.
  unfold poll_for_results.
  apply never_exits_bind; [apply never_exits_poll_loop|].
  intros r. unfold after_poll_loop. never_exits_steps.
Qed.

Lemma never_exits_get_mcp_tools : never_exits get_mcp_tools.
Proof. unfold get_mcp_tools, session_get. never_exits_steps. Qed.

Lemma never_exits_print_tools (tools : list value) :
  never_exits (print_tools tools).
Proof. induction tools as [|t rest IH]; cbn [print_tools]; never_exits_steps. Qed.

Lemma never_exits_submit (url : string) (force_refresh : bool) (mode : string) :
  never_exits (submit_retrieve_request url force_refresh mode).
Proof.
  unfold submit_retrieve_request, session_post. cbv zeta. never_exits_steps.
Qed.

Lemma never_exits_download (json_dumps : value -> string) (u : value) :
  never_exits (download_page_data json_dumps u).
Proof. unfold download_page_data, session_get. never_exits_steps. Qed.

#[local] Hint Resolve never_exits_poll_for_results never_exits_get_mcp_tools
  never_exits_print_tools never_exits_submit never_exits_download
  : never_exits.

Lemma never_exits_show_content (json_dumps : value -> string) (result : value) :
  never_exits (show_content json_dumps result).
Proof. unfold show_content. never_exits_steps. Qed.

#[local] Hint Resolve never_exits_show_content : never_exits.

Lemma never_exits_poll_and_report (json_dumps : value -> string) (v : value) :
  never_exits (poll_and_report json_dumps v).
Proof. unfold poll_and_report. never_exits_steps. Qed.

#[local] Hint Resolve never_exits_poll_and_report : never_exits.

Lemma never_exits_run_demo (json_dumps : value -> string) :
  never_exits (run_demo json_dumps).
Proof. unfold run_demo. never_exits_steps. Qed.

Lemma never_exits_run (json_dumps : value -> string) :
  never_exits (run json_dumps).
Proof.
  pose proof (never_exits_run_demo json_dumps).
  unfold run. never_exits_steps.
Qed.

Lemma any_event_holds (e : event) : no_post e -> any_event e.
Proof. intros _. exact I. Qed.

Lemma emitting_any_submit (url : string) (force_refresh : bool) (mode : string) :
  emitting any_event (submit_retrieve_request url force_refresh mode).
Proof.
  pose proof any_event_holds as Q.
  unfold submit_retrieve_request. cbv zeta.
  apply emitting_try; [| intros ?; emitting_steps].
  apply emitting_bind; [apply emitting_send; exact I|].
  intros r. emitting_steps.
Qed.

#[local] Hint Resolve emitting_any_submit : emitting.

Lemma emitting_any_run_demo (json_dumps : value -> string) :
  emitting any_event (run_demo json_dumps).
Proof.
  pose proof any_event_holds as Q. unfold run_demo. emitting_steps.
Qed.

(** A [try] whose body raises only [Exception]s and whose handler returns
    always returns. *)
Lemma try_except_returns {A} (m : M A) (h : exn -> M A) (w : world) :
  never_exits m ->
  (forall e w', exists a, fst (h e w') = Ok a) ->
  exists a, fst (try_except m h w) = Ok a.
Proof.
  intros Hm Hh. unfold try_except. specialize (Hm w).
  destruct (m w) as [[a|e] w1]; simpl in *; [now exists a|].
  rewrite (Hm e eq_refl). apply Hh.
Qed.

(** X18: nothing that goes wrong in [run_demo] leaves [run]: whatever
    happens, [run] prints its banner, and ends by asking for Enter and
    reading a line; it returns normally, or raises the [EOFError] of that
    last read when the console is closed. *)
Theorem run_always_ends_at_the_enter_prompt
  (json_dumps : value -> string) (w : world) :
  exists during,
    trace (snd (run json_dumps w)) =
      trace w
      ++ [EPrint LBannerTop; EPrint LBannerTitle; EPrint LBannerSubtitle;
          EPrint LBannerBottom; EPrint LBlank]
      ++ during
      ++ [EPrint LPressEnter; EInput PromptNone]
    /\ (fst (run json_dumps w) = Ok tt
        \/ fst (run json_dumps w) = Raise EOFError).
Proof.
  destruct (run json_dumps w) as [r wf] eqn:R. cbn [fst snd].
  unfold run in R. rewrite !bind_print in R by printable.
  match type of R with
  | context [bind (try_except ?m ?h) ?k ?W] =>
      assert (E : emitting any_event (try_except m h))
        by (pose proof any_event_holds as Q;
            pose proof (emitting_any_run_demo json_dumps);
            emitting_steps);
      destruct (try_except_returns m h W (never_exits_run_demo json_dumps))
        as [a Ha];
      [ intros e w'; exists tt; reflexivity |];
      specialize (E W);
      destruct (try_except m h W) as [r2 w2] eqn:T
  end.
  simpl in Ha. subst r2. destruct E as (during & Tr & _). simpl in Tr.
  exists during.
  unfold bind at 1 in R. rewrite T in R. rewrite bind_print in R by printable.
  unfold bind, input in R. cbn [emit_event stdin trace net sent] in R.
  destruct (stdin w2); inversion R; subst; cbn [trace emit_event];
    (split; [|auto]);
    rewrite Tr; repeat rewrite <- app_assoc; reflexivity.
Qed.

(** X19: [main] exits only for want of a key: if it raises [SystemExit],
    the status is 1, no client was built and no request was sent. *)
Theorem main_exits_only_for_want_of_a_key
  (json_dumps : value -> string) (argv : list string) (w : world) (code : Z) :
  fst (main json_dumps argv w) = Raise (SystemExit code) ->
  code = 1
  /\ sent (snd (main json_dumps argv w)) = sent w
  /\ filter (fun e => is_new_session e || is_http e)
       (events_since w (snd (main json_dumps argv w))) = [].
Proof.
  unfold main.
  match goal with
  | |- fst (bind ?m ?k w) = _ -> _ =>
      assert (K : forall key w',
                 fst (k key w') = Raise (SystemExit code) ->
                 code = 1
                 /\ snd (k key w') =
                      advance w' 0
                        [EPrint LKeyRequired; EPrint LUsage; EPrint LUsageArg;
                         EPrint LUsageOr; EPrint LUsagePrompt]);
      [ | set (cont := k) in * ]
  end.
  { intros key w'. cbv beta. destruct (PyStr.is_empty key).
    - rewrite !bind_print by printable. unfold raise. cbn [fst snd]. intros H.
      inversion H. split; [reflexivity|]. settle_world. reflexivity.
    - intros H.
      pose proof (never_exits_bind (new_demo key) (fun _ => run json_dumps)) as N.
      assert (X : is_Exception (SystemExit code) = true).
      { apply (N ltac:(intros ? ? ?; discriminate)
                 (fun _ => never_exits_run json_dumps) w'). exact H. }
      discriminate. }
  destruct (1 <? Z.of_nat (List.length argv)).
  - rewrite (bind_ok (ret (nth 1 argv ""%string)) cont w w _ eq_refl).
    intros H. destruct (K _ _ H) as [C S]. rewrite S.
    split; [exact C|]. split; [reflexivity|].
    now rewrite events_since_advance.
  - destruct (stdin w) as [|key_line rest] eqn:L.
    + unfold bind, input. rewrite L. cbn. discriminate.
    + rewrite (bind_ok _ cont w
                 (mkWorld (net w) rest (sent w) (trace w ++ [EInput PromptApiKey]))
                 (PyStr.strip key_line)).
      2:{ unfold bind, input. rewrite L. reflexivity. }
      intros H. destruct (K _ _ H) as [C S]. rewrite S.
      split; [exact C|]. split; [reflexivity|].
      rewrite (events_since_app w _
                 ([EInput PromptApiKey]
                  ++ [EPrint LKeyRequired; EPrint LUsage; EPrint LUsageArg;
                      EPrint LUsageOr; EPrint LUsagePrompt])).
      * reflexivity.
      * cbn [advance trace]. now rewrite <- app_assoc.
Qed.

Lemma main_exits_only_for_want_of_a_key_witness :
  1 = 1
  /\ sent (snd (main Sample.short_dumps ["viewengine_demo.py"; ""]%string
                 (Sample.session []))) = 0%nat
  /\ filter (fun e => is_new_session e || is_http e)
       (events_since (Sample.session [])
          (snd (main Sample.short_dumps ["viewengine_demo.py"; ""]%string
                  (Sample.session [])))) = [].
Proof.
  apply (main_exits_only_for_want_of_a_key Sample.short_dumps
           ["viewengine_demo.py"; ""]%string (Sample.session []) 1).
  reflexivity.
Defined.

(** ** How long [run_demo] polls *)

Lemma bind_lift_ok {A B} (r : result A) (a : A) (f : A -> M B) (w : world) :
  r = Ok a -> bind (lift r) f w = f a w.
Proof. intros ->. reflexivity. Qed.

(** X20: after an accepted submission, [run_demo] polls with the default
    budget: when the answer carries its three fields, each of them printable
    on the console, and none of the first 60 polls sees a terminal status,
    it sends exactly 60 status requests, each followed by a 2-second wait,
    then prints the timeout and that no result was obtained, and stops
    there without raising. *)
Theorem poll_and_report_gives_up_after_60_polls
  (json_dumps : value -> string) (retrieve_response : value) (w : world)
  (request_id status wait : value) :
  Py.getitem retrieve_response "requestId" = Ok request_id ->
  Py.getitem retrieve_response "status" = Ok status ->
  Py.getitem retrieve_response "estimatedWaitTimeSeconds" = Ok wait ->
  Py.encodable request_id = true ->
  Py.encodable status = true ->
  Py.encodable wait = true ->
  (forall i s, (i < 60)%nat ->
     seen_status (net w (sent w + i) (poll_request request_id)) = Some s ->
     is_terminal s = false) ->
  exists evs,
    poll_and_report json_dumps retrieve_response w =
      (Ok tt,
       advance w 60 (evs ++ [EPrint LTimeout; EPrint LGetResultsFailed]))
    /\ filter is_http evs = repeat (EGet (UrlRetrieveStatus request_id)) 60
    /\ filter is_sleep evs = repeat (ESleep 2) 60.
Proof.
  intros G1 G2 G3 E1 E2 E3 H.
  unfold poll_and_report.
  rewrite bind_print, (bind_lift_ok _ _ _ _ G1), bind_print,
    (bind_lift_ok _ _ _ _ G2), bind_print, (bind_lift_ok _ _ _ _ G3),
    bind_print, bind_print, bind_print, (bind_lift_ok _ _ _ _ G1) by printable.
  settle_world.
  match goal with
  | |- context [bind (poll_for_results request_id 60) ?k (advance w 0 ?pre)] =>
      destruct (poll_timeout_sleeps_waits request_id 60 (advance w 0 pre) H)
        as (ls & L & Q);
      rewrite (bind_ok _ k _ _ _ Q);
      exists (pre ++ flat_map (waiting_round request_id) ls)
  end.
  change (negb (Py.truthy VNone)) with true. cbv iota.
  unfold print. cbn [line_encodable]. settle_world.
  split; [|split].
  - f_equal. f_equal. now rewrite <- !app_assoc.
  - cbn [app filter is_http]. now rewrite https_of_waiting_rounds, L.
  - cbn [app filter is_sleep]. now rewrite sleeps_of_waiting_rounds, L.
Qed.

Lemma poll_and_report_gives_up_after_60_polls_witness :
  exists evs,
    poll_and_report Sample.short_dumps Sample.accepted
      (Sample.always_status "running") =
      (Ok tt,
       advance (Sample.always_status "running") 60
         (evs ++ [EPrint LTimeout; EPrint LGetResultsFailed]))
    /\ filter is_http evs = repeat (EGet (UrlRetrieveStatus (VStr "r1"))) 60
    /\ filter is_sleep evs = repeat (ESleep 2) 60.
Proof.
  apply (poll_and_report_gives_up_after_60_polls Sample.short_dumps
           Sample.accepted (Sample.always_status "running")
           (VStr "r1") (VStr "queued") (VInt 5)).
  - reflexivity.
  - reflexivity.
  - reflexivity.
  - reflexivity.
  - reflexivity.
  - reflexivity.
  - intros i s _ S. simpl in S. inversion S. reflexivity.
Defined.

(** ** The listing of the tools in [run_demo] *)

(** X21: the tools are listed as the server sent them: when every entry
    has a name and a description that can be printed on the console, the
    loop prints one line per entry, in order, and nothing else. *)
Theorem print_tools_lists_in_order
  (tools : list value) (shown : list (value * value)) (w : world) :
  Forall2 (fun tool nd =>
             Py.getitem tool "name" = Ok (fst nd)
             /\ Py.getitem tool "description" = Ok (snd nd)
             /\ line_encodable (LTool (fst nd) (snd nd)) = true)
    tools shown ->
  print_tools tools w =
    (Ok tt,
     advance w 0 (map (fun nd => EPrint (LTool (fst nd) (snd nd))) shown)).
Proof.
  intros H. revert w. induction H as [|tool nd tools shown (N & D & E) _ IH]; intros w.
  - simpl. unfold ret. now rewrite advance_zero.
  - cbn [print_tools map].
    rewrite (bind_lift_ok _ _ _ _ N), (bind_lift_ok _ _ _ _ D), bind_print, IH by printable.
    settle_world. reflexivity.
Qed.

Lemma print_tools_lists_in_order_witness :
  print_tools
    [VDict [("name", VStr "retrieve"); ("description", VStr "Retrieve a page")];
     VDict [("description", VStr "List pages"); ("name", VStr "list")]]
    (Sample.session []) =
    (Ok tt,
     advance (Sample.session []) 0
       [EPrint (LTool (VStr "retrieve") (VStr "Retrieve a page"));
        EPrint (LTool (VStr "list") (VStr "List pages"))]).
Proof.
  apply (print_tools_lists_in_order
           [VDict [("name", VStr "retrieve"); ("description", VStr "Retrieve a page")];
            VDict [("description", VStr "List pages"); ("name", VStr "list")]]
           [(VStr "retrieve", VStr "Retrieve a page");
            (VStr "list", VStr "List pages")]
           (Sample.session [])).
  repeat constructor.
Defined.

(** X22: an entry without a name or a description stops the listing: the
    entries before it, whose names and descriptions can be printed on the
    console, are printed, then the exception of the lookup (a KeyError for
    an object, a TypeError for anything else) is raised and the entries
    after it are not looked at. *)
Theorem print_tools_stops_at_malformed_entry
  (before after : list value) (shown : list (value * value)) (bad : value)
  (e : exn) (w : world) :
  Forall2 (fun tool nd =>
             Py.getitem tool "name" = Ok (fst nd)
             /\ Py.getitem tool "description" = Ok (snd nd)
             /\ line_encodable (LTool (fst nd) (snd nd)) = true)
    before shown ->
  Py.getitem bad "name" = Raise e
  \/ (exists name, Py.getitem bad "name" = Ok name
                   /\ Py.getitem bad "description" = Raise e) ->
  print_tools (before ++ bad :: after) w =
    (Raise e,
     advance w 0 (map (fun nd => EPrint (LTool (fst nd) (snd nd))) shown)).
Proof.
  intros H B. revert w. induction H as [|tool nd tools shown (N & D & E) _ IH]; intros w.
  - cbn [app print_tools map]. rewrite advance_zero.
    destruct B as [B | (name & N & B)].
    + unfold bind, lift. now rewrite B.
    + rewrite (bind_lift_ok _ _ _ _ N). unfold bind, lift. now rewrite B.
  - cbn [app print_tools map].
    rewrite (bind_lift_ok _ _ _ _ N), (bind_lift_ok _ _ _ _ D), bind_print, IH by printable.
    settle_world. reflexivity.
Qed.

Lemma print_tools_stops_at_malformed_entry_witness :
  print_tools
    ([VDict [("name", VStr "retrieve"); ("description", VStr "Retrieve a page")]]
     ++ VDict [("name", VStr "list")] :: [VStr "ignored"])
    (Sample.session []) =
    (Raise (KeyError "description"),
     advance (Sample.session []) 0
       [EPrint (LTool (VStr "retrieve") (VStr "Retrieve a page"))]).
Proof.
  apply (print_tools_stops_at_malformed_entry
           [VDict [("name", VStr "retrieve"); ("description", VStr "Retrieve a page")]]
           [VStr "ignored"]
           [(VStr "retrieve", VStr "Retrieve a page")]
           (VDict [("name", VStr "list")])
           (KeyError "description") (Sample.session [])).
  - repeat constructor.
  - right. exists (VStr "list"). split; reflexivity.
Defined.

(** ** What [run_demo] reports after the poll *)

(** X23: [run_demo] reports any returned result as a completed retrieval:
    when the fields of the accepted submission can be printed on the console
    and the first poll returns a payload whose status is "failed" or
    "canceled", with a url and without content, whose message, error, url
    and completion time can be printed as well, the lines that follow the
    poll are the same success lines as for "complete", and the run ends
    normally with the closing line. *)
Theorem poll_and_report_reports_failure_as_completed
  (json_dumps : value -> string) (retrieve_response : value) (w : world)
  (request_id status wait : value) (r : response)
  (items : list (string * value)) (final : string) (u : value) :
  Py.getitem retrieve_response "requestId" = Ok request_id ->
  Py.getitem retrieve_response "status" = Ok status ->
  Py.getitem retrieve_response "estimatedWaitTimeSeconds" = Ok wait ->
  Py.encodable request_id = true ->
  Py.encodable status = true ->
  Py.encodable wait = true ->
  net w (sent w) (poll_request request_id) = Response r ->
  response_ok r = true ->
  json_body r = Some (VDict items) ->
  final = "failed" \/ final = "canceled" ->
  Py.lookup "status" items = Some (VStr final) ->
  Py.lookup "url" items = Some u ->
  Py.lookup "content" items = None ->
  let message := field_or (VDict items) "message" (VStr "") in
  let error := field_or (VDict items) "error" (VStr "Unknown error") in
  let completed_at := field_or (VDict items) "completedAt" (VStr "N/A") in
  Py.encodable message = true ->
  Py.encodable error = true ->
  Py.encodable u = true ->
  Py.encodable completed_at = true ->
  poll_and_report json_dumps retrieve_response w =
    (Ok tt,
     advance w 1
       [EPrint LSubmitted; EPrint (LRequestId request_id);
        EPrint (LSubmitStatus status); EPrint (LEstimatedWait wait);
        EPrint LSeparator; EPrint LStep3;
        EGet (UrlRetrieveStatus request_id);
        EPrint (LPollStatus 1 60 (VStr final) message);
        EPrint (LPollErrorField error);
        EPrint LRetrievalCompleted;
        EPrint (LResultStatus (VStr final));
        EPrint (LResultUrl u);
        EPrint (LCompletedAt completed_at);
        EPrint LSeparator; EPrint LDemoCompleted]).
Proof.
  intros G1 G2 G3 E1 E2 E3 N K J F S U C message error completed_at
    EM EE EU EC.
  unfold field_or, Py.get in message, error, completed_at.
  cbv beta iota in message, error, completed_at.
  apply negb_true_iff in K.
  assert (NE : items <> []) by (destruct items; [discriminate | congruence]).
  unfold poll_and_report.
  rewrite bind_print, (bind_lift_ok _ _ _ _ G1), bind_print,
    (bind_lift_ok _ _ _ _ G2), bind_print, (bind_lift_ok _ _ _ _ G3),
    bind_print, bind_print, bind_print, (bind_lift_ok _ _ _ _ G1) by printable.
  settle_world.
  match goal with
  | |- context [bind (poll_for_results request_id 60) ?k (advance w 0 ?pre)] =>
      pose proof (poll_attempt_object request_id 1 60 (advance w 0 pre) r items
                    N K J NE) as A;
      cbv zeta in A; rewrite S in A; fold message error in A;
      assert (L : line_encodable (LPollStatus 1 60 (VStr final) message) = true)
        by (cbn [line_encodable Py.encodable]; now rewrite EM);
      specialize (A L); rewrite EE in A;
      assert (Q : poll_for_results request_id 60 (advance w 0 pre) =
                  (Ok (VDict items),
                   advance (advance w 0 pre) 1
                     [EGet (UrlRetrieveStatus request_id);
                      EPrint (LPollStatus 1 60 (VStr final) message);
                      EPrint (LPollErrorField error)]));
      [ rewrite (poll_for_results_reaches request_id 60 [] (Py.range 2 61) 1
                   _ _ eq_refl eq_refl);
        cbn [poll_loop]; unfold bind;
        destruct F as [-> | ->];
        cbn [Py.eq_str String.eqb Ascii.eqb Bool.eqb orb] in A; rewrite A;
        reflexivity
      | rewrite (bind_ok _ k _ _ _ Q) ]
  end.
  assert (T : Py.truthy (VDict items) = true)
    by (destruct items; [congruence | reflexivity]).
  rewrite T. cbn [negb]. rewrite bind_print by printable.
  unfold Py.getitem, Py.get. rewrite S, U, C. fold completed_at.
  unfold lift at 1. unfold bind at 1. rewrite bind_print by printable.
  unfold lift at 1. unfold bind at 1. rewrite bind_print by printable.
  unfold lift at 1. unfold bind at 1. rewrite bind_print by printable.
  unfold lift at 1. unfold bind at 1. cbn [Py.truthy].
  unfold bind at 1, ret at 1. rewrite bind_print by printable.
  unfold print. cbn [line_encodable]. settle_world. reflexivity.
Qed.

Lemma poll_and_report_reports_failure_as_completed_witness :
  poll_and_report Sample.short_dumps Sample.accepted
    (Sample.always_status "failed") =
    (Ok tt,
     advance (Sample.always_status "failed") 1
       [EPrint LSubmitted; EPrint (LRequestId (VStr "r1"));
        EPrint (LSubmitStatus (VStr "queued")); EPrint (LEstimatedWait (VInt 5));
        EPrint LSeparator; EPrint LStep3;
        EGet (UrlRetrieveStatus (VStr "r1"));
        EPrint (LPollStatus 1 60 (VStr "failed") (VStr ""));
        EPrint (LPollErrorField (VStr "Unknown error"));
        EPrint LRetrievalCompleted;
        EPrint (LResultStatus (VStr "failed"));
        EPrint (LResultUrl (VStr "https://example.com"));
        EPrint (LCompletedAt (VStr "N/A"));
        EPrint LSeparator; EPrint LDemoCompleted]).
Proof.
  apply (poll_and_report_reports_failure_as_completed Sample.short_dumps
           Sample.accepted (Sample.always_status "failed")
           (VStr "r1") (VStr "queued") (VInt 5)
           (mkResponse 200 "<json>" (Some (Sample.status_payload "failed")))
           [("status", VStr "failed"); ("url", VStr "https://example.com")]
           "failed" (VStr "https://example.com")).
  - reflexivity.
  - reflexivity.
  - reflexivity.
  - reflexivity.
  - reflexivity.
  - reflexivity.
  - reflexivity.
  - reflexivity.
  - reflexivity.
  - left. reflexivity.
  - reflexivity.
  - reflexivity.
  - reflexivity.
  - reflexivity.
  - reflexivity.
  - reflexivity.
  - reflexivity.
Defined.
